(** * Fraud-detection backend: a shallow embedding of [src/backend/server.js]

    The development follows the source file top to bottom:

    - [Num]: JavaScript numbers, i.e. IEEE-754 binary64 values, with the
      handful of operations the server uses ([+], [>], [>=], [<], [<=],
      [Number.isInteger], truthiness, [TimeClip]);
    - [json]: what [JSON.parse] returns, property access on it, and its
      conversions to a string and to a date, which may throw;
    - the rule evaluator (lines 77-141), the risk classifier (143-145);
    - the Kafka message handler [eachMessage] (lines 65-181) over an explicit
      store with an exception monad, the consume loop and the start-up
      sequence (lines 55-187);
    - the review endpoint [PUT /api/alerts/:alertId] (lines 245-267);
    - the rule table of the specification, against which the evaluator is
      compared.

    What the JavaScript host or an external package decides (the JSON parser,
    [Date.parse], the time zone, number formatting, the clock, the random
    generator, whether Mongoose accepts a write and how it casts a member of
    an update that is not a string, whether Kafka connects) is a field of a
    [Host], [Env] or [Transport] record; the theorems hold for every value of
    these fields.  Two things Mongoose does with the schemas of lines 11-37
    are written out, because the handlers' outcome depends on them: it
    refuses a transaction whose [timestamp] is the Invalid Date
    ([valid_timestamp], [validates_timestamp]), and it drops a member that is
    [undefined] from an update ([cast_member]). *)

From Stdlib Require Import ZArith QArith List String Ascii Bool Lia SpecFloat DecimalString.
From Stdlib Require Import Sorted Permutation.
Import ListNotations.

Local Open Scope string_scope.
Local Open Scope list_scope.

Set Warnings "-register-all".

(* ------------------------------------------------------------------ *)
(** ** JavaScript numbers *)

(** A JavaScript number is a binary64 float. *)
Definition number : Type := spec_float.

Module Num.

Definition prec : Z := 53.
Definition emax : Z := 1024.

(** [x + y], rounded to nearest, ties to even. *)
Definition add (x y : number) : number := SFadd prec emax x y.

(** The number denoted by an integer literal. *)
Definition of_Z (z : Z) : number := binary_normalize prec emax z 0 false.

(** The number denoted by the decimal literal whose value is [n / d]
    ([d] a power of ten): the nearest binary64, as the correctly rounded
    quotient of two exactly represented integers. *)
Definition dec (n d : Z) : number := SFdiv prec emax (of_Z n) (of_Z d).

(** The number nearest to a decimal fraction. *)
Definition of_Q (q : Q) : number := dec (Qnum q) (Z.pos (Qden q)).

(** Relational operators; every one is [false] when an operand is NaN. *)
Definition ltb (x y : number) : bool := SFltb x y.
Definition leb (x y : number) : bool := SFleb x y.
Definition gtb (x y : number) : bool := SFltb y x.
Definition geb (x y : number) : bool := SFleb y x.

(** [ToBoolean] on a number: zero and NaN are falsy. *)
Definition truthy (x : number) : bool :=
  match x with
  | S754_zero _ | S754_nan => false
  | _ => true
  end.

(** [Number.isInteger] on a value that is already a number. *)
Definition isInteger (x : number) : bool :=
  match x with
  | S754_zero _ => true
  | S754_finite _ m e =>
      if (0 <=? e)%Z then true
      else (Z.pos m mod 2 ^ (- e) =? 0)%Z
  | S754_infinity _ | S754_nan => false
  end.

(** [ToIntegerOrInfinity] on a finite number: truncation towards zero. *)
Definition trunc (x : number) : Z :=
  match x with
  | S754_finite s m e =>
      let a := if (0 <=? e)%Z then (Z.pos m * 2 ^ e)%Z
               else (Z.pos m / 2 ^ (- e))%Z in
      if s then (- a)%Z else a
  | _ => 0%Z
  end.

Definition isFinite (x : number) : bool :=
  match x with
  | S754_zero _ | S754_finite _ _ _ => true
  | _ => false
  end.

(** [TimeClip]: the time value of [new Date(x)] for a number [x];
    [None] stands for NaN, i.e. an Invalid Date. *)
Definition timeClip (x : number) : option Z :=
  if negb (isFinite x) then None
  else if gtb (SFabs x) (of_Z 8640000000000000) then None
  else Some (trunc x).

End Num.

(* ------------------------------------------------------------------ *)
(** ** JSON values and property access *)

(** The result of [JSON.parse].  An object keeps its members in source
    order; a repeated key is resolved by [lookup] the way the parser does,
    the last occurrence winning. *)
Inductive json : Type :=
| JNull
| JBool (b : bool)
| JNum (n : number)
| JStr (s : string)
| JArr (items : list json)
| JObj (members : list (string * json)).

(** A JavaScript value read out of a payload: [None] is [undefined]. *)
Definition value := option json.

Fixpoint lookup (k : string) (members : list (string * json)) : value :=
  match members with
  | [] => None
  | (k', v) :: rest =>
      match lookup k rest with
      | Some w => Some w
      | None => if String.eqb k k' then Some v else None
      end
  end.

(** [v.k] for a non-null [v] and one of the field names the server reads.
    None of those names is an own or inherited property of a number, a
    boolean, a string or an array, so only objects can answer.  On [null]
    the access throws; [eachMessage_body] raises that at the first access
    (line 68), after which the payload is known not to be [null]. *)
Definition prop (v : json) (k : string) : value :=
  match v with
  | JObj members => lookup k members
  | _ => None
  end.

(** [ToBoolean]. *)
Definition truthy (v : value) : bool :=
  match v with
  | None | Some JNull => false
  | Some (JBool b) => b
  | Some (JNum n) => Num.truthy n
  | Some (JStr s) => negb (String.eqb s "")
  | Some (JArr _) | Some (JObj _) => true
  end.

(** [a || b]. *)
Definition or_else (a b : value) : value := if truthy a then a else b.

(** [v?.k]. *)
Definition opt_prop (v : value) (k : string) : value :=
  match v with
  | None | Some JNull => None
  | Some o => prop o k
  end.

(** [v === "s"]. *)
Definition is_string (v : value) (s : string) : bool :=
  match v with
  | Some (JStr t) => String.eqb t s
  | _ => false
  end.

(** [v === false]. *)
Definition is_false (v : value) : bool :=
  match v with
  | Some (JBool false) => true
  | _ => false
  end.

(** [typeof v === 'number'], returning the number. *)
Definition as_number (v : value) : option number :=
  match v with
  | Some (JNum n) => Some n
  | _ => None
  end.

(** [typeof v === 'string'], returning the string. *)
Definition as_string (v : value) : option string :=
  match v with
  | Some (JStr s) => Some s
  | _ => None
  end.

(** [String.prototype.includes]. *)
Fixpoint includes (s sub : string) : bool :=
  String.prefix sub s ||
  match s with
  | EmptyString => false
  | String _ s' => includes s' sub
  end.

(** [list.includes(v)] for a list of string literals: strict equality, so
    only a string can be found. *)
Definition list_includes (l : list string) (v : value) : bool :=
  match v with
  | Some (JStr s) => existsb (String.eqb s) l
  | _ => false
  end.

(* ------------------------------------------------------------------ *)
(** ** Exceptions *)

Inductive exn : Type :=
| TypeError
| SyntaxError
| StoreError.

(** The outcome of an expression that may throw. *)
Inductive result (A : Type) : Type :=
| Ok (a : A)
| Throw (e : exn).
Arguments Ok {A} a.
Arguments Throw {A} e.

Definition and_then {A B} (r : result A) (k : A -> result B) : result B :=
  match r with
  | Ok a => k a
  | Throw e => Throw e
  end.

Notation "x <~ r ;; k" := (and_then r (fun x => k))
  (at level 61, r at next level, right associativity).

(* ------------------------------------------------------------------ *)
(** ** The host *)

(** A [Date] object is its time value, milliseconds since the epoch;
    [None] is the Invalid Date. *)
Definition Date := option Z.

(** What the JavaScript engine and its locale decide. *)
Record Host : Type := {
  JSON_parse : string -> option json;       (* [None]: SyntaxError *)
  Date_parse : string -> option Z;          (* [None]: NaN *)
  LocalTime : Z -> Z;                       (* UTC ms to local ms *)
  NumberToString : number -> string;        (* String(n) *)
  toLocaleString : number -> string
}.

(** [String(v)], as a template literal computes it.  A parsed object has no
    callable member, so an own [toString] member leaves no way to convert
    it and the conversion throws; otherwise [Object.prototype.toString]
    answers.  An array is joined with commas, [null] elements rendering as
    the empty string. *)
Fixpoint ToString (h : Host) (v : json) : result string :=
  match v with
  | JStr s => Ok s
  | JNull => Ok "null"
  | JBool true => Ok "true"
  | JBool false => Ok "false"
  | JNum n => Ok (NumberToString h n)
  | JArr items =>
      (fix join (l : list json) : result string :=
         match l with
         | [] => Ok ""
         | x :: rest =>
             sx <~ match x with JNull => Ok "" | _ => ToString h x end ;;
             match rest with
             | [] => Ok sx
             | _ => sr <~ join rest ;; Ok (sx ++ "," ++ sr)%string
             end
         end) items
  | JObj members =>
      match lookup "toString" members with
      | Some _ => Throw TypeError
      | None => Ok "[object Object]"
      end
  end.

(** [new Date(v)] for a value taken from the payload.  An object or an
    array is first converted to a primitive, which for them is the string
    above. *)
Definition newDate (h : Host) (v : json) : result Date :=
  match v with
  | JStr s => Ok (Date_parse h s)
  | JNum n => Ok (Num.timeClip n)
  | JBool b => Ok (Some (if b then 1 else 0)%Z)
  | JNull => Ok (Some 0%Z)
  | JArr _ | JObj _ => s <~ ToString h v ;; Ok (Date_parse h s)
  end.

Definition msPerHour : Z := 3600000.

(** [d.getHours()]: [None] is NaN. *)
Definition getHours (h : Host) (d : Date) : option Z :=
  match d with
  | None => None
  | Some t => Some ((LocalTime h t / msPerHour) mod 24)%Z
  end.

(* ------------------------------------------------------------------ *)
(** ** Rule evaluator (lines 77-141) *)

Record indicator : Type := {
  code : string;
  message : string
}.

(** The two local variables of the handler, [score] and [indicators]. *)
Record acc : Type := {
  score : number;
  indicators : list indicator
}.

(** [let score = 0; const indicators = [];] *)
Definition acc0 : acc := {| score := Num.of_Z 0; indicators := [] |}.

(** [score += w; indicators.push({code: c, message: m});] *)
Definition fire (w : number) (c m : string) (a : acc) : acc :=
  {| score := Num.add (score a) w;
     indicators := indicators a ++ [ {| code := c; message := m |} ] |}.

(** [`${v}`] for a possibly undefined value. *)
Definition template (h : Host) (v : value) : result string :=
  match v with
  | None => Ok "undefined"
  | Some j => ToString h j
  end.

(** [v] for a value already known to be a string. *)
Definition text_of (v : value) : string :=
  match as_string v with
  | Some s => s
  | None => ""
  end.

Definition suspiciousMerchants : list string :=
  ["UNKNOWN_MERCHANT"; "CRYPTO_EXCHANGE"; "OFFSHORE_CASINO"; "HIGH_RISK_VENDOR"].

Definition suspiciousCategories : list string :=
  ["GAMBLING"; "CRYPTO"; "WIRE_TRANSFER"; "GIFT_CARDS"].

Definition suspiciousDevices : list string :=
  ["Emulator"; "Unknown Device"; "Rooted Android"; "Jailbroken iPhone"].

(** Lines 80-83; rendering the country may throw. *)
Definition rule_geography (h : Host) (txn : json) (a : acc) : result acc :=
  if is_string (opt_prop (prop txn "location") "risk") "high" then
    country <~ template h (or_else (opt_prop (prop txn "location") "country")
                                   (Some (JStr "unknown"))) ;;
    Ok (fire (Num.dec 5 10) "HIGH_RISK_GEOGRAPHY"
          ("High risk geography: " ++ country) a)
  else Ok a.

(** Lines 85-88. *)
Definition rule_cvv (txn : json) (a : acc) : acc :=
  if is_false (prop txn "cvvMatch") then
    fire (Num.dec 3 10) "CVV_VERIFICATION_FAILED" "CVV verification failed" a
  else a.

(** Lines 90-93. *)
Definition rule_avs (txn : json) (a : acc) : acc :=
  if is_false (prop txn "avsMatch") then
    fire (Num.dec 15 100) "ADDRESS_VERIFICATION_FAILED" "Address verification failed" a
  else a.

(** [typeof v === 'number' && v > bound]. *)
Definition number_above (v : value) (bound : number) : bool :=
  match as_number v with
  | Some n => Num.gtb n bound
  | None => false
  end.

(** Lines 95-101: an [if] / [else if] pair. *)
Definition rule_amount (h : Host) (txn : json) (a : acc) : acc :=
  if number_above (prop txn "amount") (Num.of_Z 100000) then
    fire (Num.dec 2 10) "UNUSUAL_TRANSACTION_AMOUNT"
      ("High amount: ₹" ++
       match as_number (prop txn "amount") with
       | Some n => toLocaleString h n
       | None => ""
       end) a
  else if number_above (prop txn "amount") (Num.of_Z 50000) then
    fire (Num.dec 1 10) "UNUSUAL_TRANSACTION_AMOUNT"
      ("Medium amount: ₹" ++
       match as_number (prop txn "amount") with
       | Some n => toLocaleString h n
       | None => ""
       end) a
  else a.

(** [typeof m === 'string' && suspiciousMerchants.some(x => m.includes(x))]. *)
Definition merchant_suspicious (v : value) : bool :=
  match as_string v with
  | Some s => existsb (includes s) suspiciousMerchants
  | None => false
  end.

(** Lines 103-107. *)
Definition rule_merchant (txn : json) (a : acc) : acc :=
  if merchant_suspicious (prop txn "merchant") then
    fire (Num.dec 3 10) "HIGH_RISK_MERCHANT"
      ("Suspicious merchant: " ++ text_of (prop txn "merchant")) a
  else a.

(** Lines 109-113. *)
Definition rule_category (txn : json) (a : acc) : acc :=
  if list_includes suspiciousCategories (prop txn "category") then
    fire (Num.dec 25 100) "HIGH_RISK_MERCHANT_CATEGORY"
      ("Category: " ++ text_of (prop txn "category")) a
  else a.

(** Lines 115-119. *)
Definition rule_device (txn : json) (a : acc) : acc :=
  if list_includes suspiciousDevices (prop txn "device") then
    fire (Num.dec 2 10) "SUSPICIOUS_DEVICE" "Suspicious device detected" a
  else a.

(** Lines 121-124. *)
Definition rule_vpn (txn : json) (a : acc) : acc :=
  if truthy (prop txn "isVPN") || truthy (prop txn "isTor") then
    fire (Num.dec 15 100) "VPN_OR_PROXY_DETECTED"
      (if truthy (prop txn "isTor") then "Tor network detected"
       else "VPN/proxy detected") a
  else a.

(** [Number.isInteger(v) && v >= 3]. *)
Definition integer_at_least_3 (v : value) : bool :=
  match as_number v with
  | Some n => Num.isInteger n && Num.geb n (Num.of_Z 3)
  | None => false
  end.

(** Lines 126-129. *)
Definition rule_declines (h : Host) (txn : json) (a : acc) : acc :=
  if integer_at_least_3 (prop txn "previousDeclines") then
    fire (Num.dec 3 10) "CARD_TESTING_PATTERN"
      ("Previous declines: " ++
       match as_number (prop txn "previousDeclines") with
       | Some n => NumberToString h n
       | None => ""
       end) a
  else a.

(** [typeof v === 'number' && v < 30]. *)
Definition number_below_30 (v : value) : bool :=
  match as_number v with
  | Some n => Num.ltb n (Num.of_Z 30)
  | None => false
  end.

(** Lines 131-134. *)
Definition rule_account_age (txn : json) (a : acc) : acc :=
  if number_below_30 (prop txn "accountAge") then
    fire (Num.dec 1 10) "NEW_ACCOUNT_RISK" "New account risk" a
  else a.

(** Line 136: [txn.timestamp ? new Date(txn.timestamp) : new Date()];
    [now] is what the clock reads when [new Date()] is evaluated. *)
Definition txnTime (h : Host) (now : Z) (txn : json) : result Date :=
  match prop txn "timestamp" with
  | Some v => if truthy (Some v) then newDate h v else Ok (Some now)
  | None => Ok (Some now)
  end.

(** Line 138: [hour >= 23 || hour <= 5]; both comparisons are false on NaN. *)
Definition night_hour (hour : option Z) : bool :=
  match hour with
  | Some k => (23 <=? k)%Z || (k <=? 5)%Z
  | None => false
  end.

(** Lines 137-141. *)
Definition rule_time (h : Host) (t : Date) (a : acc) : acc :=
  if night_hour (getHours h t) then
    fire (Num.dec 8 100) "UNUSUAL_TRANSACTION_TIME" "Night-time transaction" a
  else a.

(** Lines 77-141, in program order: the final [score] and [indicators],
    with [txnTime]. *)
Definition evaluate (h : Host) (now : Z) (txn : json) : result (acc * Date) :=
  let a := acc0 in
  a <~ rule_geography h txn a ;;
  let a := rule_cvv txn a in
  let a := rule_avs txn a in
  let a := rule_amount h txn a in
  let a := rule_merchant txn a in
  let a := rule_category txn a in
  let a := rule_device txn a in
  let a := rule_vpn txn a in
  let a := rule_declines h txn a in
  let a := rule_account_age txn a in
  t <~ txnTime h now txn ;;
  Ok (rule_time h t a, t).

(* ------------------------------------------------------------------ *)
(** ** Risk classifier (lines 143-145) *)

Inductive riskLevel : Type := LOW | MEDIUM | HIGH | CRITICAL.

Definition classify (s : number) : riskLevel :=
  if Num.geb s (Num.dec 7 10) then CRITICAL
  else if Num.geb s (Num.dec 5 10) then HIGH
  else if Num.geb s (Num.dec 3 10) then MEDIUM
  else LOW.

Definition level_eqb (a b : riskLevel) : bool :=
  match a, b with
  | LOW, LOW | MEDIUM, MEDIUM | HIGH, HIGH | CRITICAL, CRITICAL => true
  | _, _ => false
  end.

(** Line 164: [score >= 0.4]. *)
Definition alertThreshold : number := Num.dec 4 10.

Definition alert_due (s : number) : bool := Num.geb s alertThreshold.

(* ------------------------------------------------------------------ *)
(** ** Documents and the store *)

(** The document handed to [Transaction.create] (lines 149-160). *)
Record StoredTransaction : Type := {
  tx_transactionId : value;
  tx_accountId : value;
  tx_amount : value;
  tx_merchant : value;
  tx_category : value;
  tx_location : value;
  tx_mlScore : number;
  tx_riskLevel : riskLevel;
  tx_fraudIndicators : list string;
  tx_timestamp : Date
}.

(** An alert document: the fields of [alertSchema] (lines 24-37).
    [reviewedAt] is [None] until a review sets it. *)
Record Alert : Type := {
  alertId : string;
  al_transactionId : value;
  transaction : json;
  al_mlScore : number;
  al_riskLevel : riskLevel;
  reasons : list indicator;
  status : value;
  assignedTo : value;
  reviewedAt : option Z;
  action : value;
  comments : value;
  createdAt : Z
}.

(** Console output, one constructor per logging statement; [id] is the
    identifier as the template literal renders it. *)
Inductive diag : Type :=
| Warn_skipping
| Info_processing (id : string)
| Info_result (id : string) (s : number) (l : riskLevel)
| Info_saved (id : string)
| Info_alert_created (aid : string) (l : riskLevel)
| Info_clean (id : string) (s : number)
| Error_processing (e : exn)
| Info_kafka_connected
| Error_kafka_init
| Error_update_alert (e : exn).

(** The two collections and the console. *)
Record Sys : Type := {
  transactions : list StoredTransaction;
  alerts : list Alert;
  console : list diag
}.

(** What the surroundings decide while one message or request is handled:
    clock readings, the random suffix, whether the document store accepts
    each write (its validation of the document against the schema
    included), and how it casts a value that is not a string to a [String]
    path ([None] when it refuses the cast). *)
Record Env : Type := {
  now : Z;                                  (* [new Date()], line 136 *)
  alertNow : Z;                             (* [Date.now()], line 166 *)
  random5 : string;                         (* [Math.random().toString(36).slice(2, 7)] *)
  createdNow : Z;                           (* schema default of [createdAt] *)
  reviewNow : Z;                            (* [new Date()], line 257 *)
  Transaction_create_ok : StoredTransaction -> bool;
  Alert_create_ok : Alert -> bool;
  Alert_update_ok : bool;
  castString : json -> option json
}.

(* ------------------------------------------------------------------ *)
(** ** A state-and-exception monad for the handlers *)

Definition M (A : Type) : Type := Sys -> result A * Sys.

Definition ret {A} (a : A) : M A := fun s => (Ok a, s).

Definition bind {A B} (m : M A) (k : A -> M B) : M B :=
  fun s =>
    match m s with
    | (Ok a, s') => k a s'
    | (Throw e, s') => (Throw e, s')
    end.

Definition throw {A} (e : exn) : M A := fun s => (Throw e, s).

(** An expression that may throw, evaluated inside a handler. *)
Definition lift {A} (r : result A) : M A := fun s => (r, s).

(** [try { m } catch (err) { handler err }]. *)
Definition try_catch {A} (m : M A) (handler : exn -> M A) : M A :=
  fun s =>
    match m s with
    | (Ok a, s') => (Ok a, s')
    | (Throw e, s') => handler e s'
    end.

Notation "x <- m ;; k" := (bind m (fun x => k))
  (at level 61, m at next level, right associativity).
Notation "m ;;; k" := (bind m (fun _ => k))
  (at level 61, right associativity).

Definition log (d : diag) : M unit :=
  fun s => (Ok tt, {| transactions := transactions s;
                      alerts := alerts s;
                      console := console s ++ [d] |}).

(** Modelled from the spec: the document store's insert (section 6), which
    belongs to the Mongoose package; [await Transaction.create(doc)] appends
    the document, or rejects when the store does not accept it. *)
Definition Transaction_create (env : Env) (doc : StoredTransaction) : M unit :=
  fun s =>
    if Transaction_create_ok env doc then
      (Ok tt, {| transactions := transactions s ++ [doc];
                 alerts := alerts s;
                 console := console s |})
    else (Throw StoreError, s).

(** [transactionSchema] declares [timestamp] as a [Date] (line 21).  Before
    a document is written the Mongoose package casts it to its schema, and
    the cast to [Date] refuses the Invalid Date: such a document is rejected
    with a validation error. *)
Definition valid_timestamp (doc : StoredTransaction) : bool :=
  match tx_timestamp doc with
  | Some _ => true
  | None => false
  end.

(** A store that validates so accepts no document whose [timestamp] is the
    Invalid Date. *)
Definition validates_timestamp (env : Env) : Prop :=
  forall doc, Transaction_create_ok env doc = true -> valid_timestamp doc = true.

(** Modelled from the spec: the same insert on the alerts collection,
    [await Alert.create(doc)], returning the created document. *)
Definition Alert_create (env : Env) (doc : Alert) : M Alert :=
  fun s =>
    if Alert_create_ok env doc then
      (Ok doc, {| transactions := transactions s;
                  alerts := alerts s ++ [doc];
                  console := console s |})
    else (Throw StoreError, s).

(* ------------------------------------------------------------------ *)
(** ** The message handler (lines 65-181) *)

(** A Kafka message; [msg_value] is [None] for a null value. *)
Record KafkaMessage : Type := { msg_value : option string }.

(** Decimal rendering of an integer, for [`${Date.now()}`]. *)
Definition show_Z (z : Z) : string := NilZero.string_of_int (Z.to_int z).

(** Line 68: [txn.id || txn.transactionId]. *)
Definition identifier (txn : json) : value :=
  or_else (prop txn "id") (prop txn "transactionId").

(** Lines 150-159. *)
Definition transaction_doc (txn : json) (transactionId : value) (a : acc)
    (t : Date) : StoredTransaction :=
  {| tx_transactionId := transactionId;
     tx_accountId := prop txn "accountId";
     tx_amount := prop txn "amount";
     tx_merchant := prop txn "merchant";
     tx_category := prop txn "category";
     tx_location := prop txn "location";
     tx_mlScore := score a;
     tx_riskLevel := classify (score a);
     tx_fraudIndicators := map message (indicators a);
     tx_timestamp := t |}.

(** Lines 166-172; the review fields are left unset and [createdAt] takes
    its schema default. *)
Definition alert_doc (env : Env) (txn : json) (transactionId : value)
    (a : acc) : Alert :=
  {| alertId := "ALERT" ++ show_Z (alertNow env) ++ random5 env;
     al_transactionId := transactionId;
     transaction := txn;
     al_mlScore := score a;
     al_riskLevel := classify (score a);
     reasons := indicators a;
     status := Some (JStr "PENDING");
     assignedTo := None;
     reviewedAt := None;
     action := None;
     comments := None;
     createdAt := createdNow env |}.

(** Lines 67-177, the body of the [try]. *)
Definition eachMessage_body (h : Host) (env : Env) (msg : KafkaMessage) : M unit :=
  raw <- match msg_value msg with
         | Some s => ret s
         | None => throw TypeError
         end ;;
  txn <- match JSON_parse h raw with
         | Some t => ret t
         | None => throw SyntaxError
         end ;;
  match txn with
  | JNull => throw TypeError
  | _ =>
      let transactionId := identifier txn in
      if negb (truthy transactionId) then
        log Warn_skipping
      else
        id <- lift (template h transactionId) ;;
        log (Info_processing id) ;;;
        r <- lift (evaluate h (now env) txn) ;;
        let a := fst r in
        let t := snd r in
        let level := classify (score a) in
        log (Info_result id (score a) level) ;;;
        Transaction_create env (transaction_doc txn transactionId a t) ;;;
        log (Info_saved id) ;;;
        if alert_due (score a) then
          alert <- Alert_create env (alert_doc env txn transactionId a) ;;
          log (Info_alert_created (alertId alert) level)
        else
          log (Info_clean id (score a))
  end.

(** Lines 65-181: the body wrapped in [try]/[catch]. *)
Definition eachMessage (h : Host) (env : Env) (msg : KafkaMessage) : M unit :=
  try_catch (eachMessage_body h env msg)
            (fun err => log (Error_processing err)).

(** [consumer.run]: the handler is called on every delivered message in
    turn; an exception leaving the handler would stop the loop. *)
Fixpoint consume (h : Host) (feed : list (Env * KafkaMessage)) : M unit :=
  match feed with
  | [] => ret tt
  | (env, msg) :: rest => eachMessage h env msg ;;; consume h rest
  end.

(* ------------------------------------------------------------------ *)
(** ** Start-up (lines 55-187) *)

(** What the Kafka client (the kafkajs package) answers at start-up, and
    the messages it then delivers. *)
Record Transport : Type := {
  producer_connect_ok : bool;
  consumer_connect_ok : bool;
  subscribe_ok : bool;
  feed : list (Env * KafkaMessage)
}.

Inductive process : Type :=
| Running (s : Sys)                  (* still consuming *)
| Exited (exit_code : Z) (s : Sys)   (* [process.exit] *)
| ConsumerCrashed (e : exn) (s : Sys).

Definition startup (h : Host) (tr : Transport) (s : Sys) : process :=
  if producer_connect_ok tr && consumer_connect_ok tr && subscribe_ok tr then
    match (log Info_kafka_connected ;;; consume h (feed tr)) s with
    | (Ok _, s') => Running s'
    | (Throw e, s') => ConsumerCrashed e s'
    end
  else
    Exited 1 (snd (log Error_kafka_init s)).

(* ------------------------------------------------------------------ *)
(** ** Review endpoint, [PUT /api/alerts/:alertId] (lines 245-267) *)

(** [req.params.alertId] and [req.body] as [express.json()] leaves it: the
    members of the parsed object (none for an array or an absent body). *)
Record ReviewRequest : Type := {
  params_alertId : string;
  body : list (string * json)
}.

Inductive response : Type :=
| Json200 (data : option Alert)      (* [{ success: true, data }], [None] is [null] *)
| Json500 (e : exn).

(** One member of the update document of lines 252-258, as the store takes
    it for a [String] path of [alertSchema] (lines 31-35).  A member missing
    from the body reaches the update as [undefined], and the Mongoose package
    (version 6 and later) removes such a key from the update; a string is
    taken as it is; any other value is cast by the package, which refuses the
    whole update when the cast fails. *)
Definition cast_member (env : Env) (v : value) : result value :=
  match v with
  | None => Ok None
  | Some (JStr text) => Ok (Some (JStr text))
  | Some other =>
      match castString env other with
      | Some w => Ok (Some w)
      | None => Throw StoreError
      end
  end.

(** The value of a path after the update: the new value when the update
    still has the key, the stored one when the key was removed. *)
Definition written (new old : value) : value :=
  match new with
  | Some _ => new
  | None => old
  end.

(** The update of lines 252-258 applied to one alert, [act], [cmt] and
    [asg] being the members as the store takes them. *)
Definition review (act cmt asg : value) (at_ : Z) (a : Alert) : Alert :=
  {| alertId := alertId a;
     al_transactionId := al_transactionId a;
     transaction := transaction a;
     al_mlScore := al_mlScore a;
     al_riskLevel := al_riskLevel a;
     reasons := reasons a;
     status := written act (status a);
     assignedTo := written asg (assignedTo a);
     reviewedAt := Some at_;
     action := written act (action a);
     comments := written cmt (comments a);
     createdAt := createdAt a |}.

(** Modelled from the spec: the document store's [findOneAndUpdate], which
    belongs to the Mongoose package and not to the repository, as sections
    4.5 and 6 describe it and as line 250 calls it, with
    [{ alertId }] as filter and [{ new: true }]: the first document with
    that [alertId] is updated and returned; [None], the not-found result,
    when there is none, and then nothing is written. *)
Fixpoint findOneAndUpdate (id : string) (update : Alert -> Alert)
    (l : list Alert) : option Alert * list Alert :=
  match l with
  | [] => (None, [])
  | a :: rest =>
      if String.eqb (alertId a) id then (Some (update a), update a :: rest)
      else let (r, rest') := findOneAndUpdate id update rest in (r, a :: rest')
  end.

Definition Alert_findOneAndUpdate (env : Env) (id : string)
    (update : Alert -> Alert) : M (option Alert) :=
  fun s =>
    if Alert_update_ok env then
      let (r, l) := findOneAndUpdate id update (alerts s) in
      (Ok r, {| transactions := transactions s;
                alerts := l;
                console := console s |})
    else (Throw StoreError, s).

(** The update document of lines 252-258 as the store takes it. *)
Definition cast_update (env : Env) (body : list (string * json))
    : result (Alert -> Alert) :=
  act <~ cast_member env (lookup "action" body) ;;
  cmt <~ cast_member env (lookup "comments" body) ;;
  asg <~ cast_member env (lookup "assignedTo" body) ;;
  Ok (review act cmt asg (reviewNow env)).

Definition applyReview (env : Env) (req : ReviewRequest) : M response :=
  try_catch
    (update <- lift (cast_update env (body req)) ;;
     alert <- Alert_findOneAndUpdate env (params_alertId req) update ;;
     ret (Json200 alert))
    (fun error => log (Error_update_alert error) ;;; ret (Json500 error)).

(* ------------------------------------------------------------------ *)
(** ** Broker list (line 46) *)

(** [s.split(',')]: the pieces between the commas; there is always one. *)
Fixpoint split_commas (s : string) : list string :=
  match s with
  | EmptyString => [EmptyString]
  | String c rest =>
      if Ascii.eqb c "," then EmptyString :: split_commas rest
      else match split_commas rest with
           | [] => [String c EmptyString]
           | w :: ws => String c w :: ws
           end
  end.

(** [process.env.KAFKA_BROKERS ? process.env.KAFKA_BROKERS.split(',') : []];
    the variable is [None] when unset. *)
Definition kafkaBrokers (KAFKA_BROKERS : option string) : list string :=
  match KAFKA_BROKERS with
  | Some s => if negb (String.eqb s "") then split_commas s else []
  | None => []
  end.

(* ------------------------------------------------------------------ *)
(** ** The other HTTP endpoints (lines 189-243 and 269-325)

    These handlers share the two collections with the message handler,
    publish to the topic it consumes, and write console lines of their own;
    the state they run on puts the three together. *)

(** Console output of these endpoints, one constructor per logging
    statement. *)
Inductive event : Type :=
| Error_publish                               (* line 197 *)
| Error_fetch_transactions                    (* line 207 *)
| Error_fetch_alerts                          (* line 217 *)
| Error_stats                                 (* line 240 *)
| Warn_failed_cleanup (at_ : string)          (* line 284 *)
| Info_cleanup_requested (at_ : string)       (* line 294 *)
| Info_cleanup_completed                      (* line 302 *)
| Info_cleanup_deleted (txs als : Z)          (* line 303 *)
| Error_cleanup.                              (* line 319 *)

Record World : Type := {
  sys : Sys;                      (* the collections, and the console of [Sys] *)
  topic : list string;            (* values published to 'transactions' *)
  journal : list event
}.

(** What the surroundings decide while one request is handled: whether the
    Kafka producer and each call to the document store succeed, the
    environment variable, the clock rendered by [toISOString], and the
    built-in formatters. *)
Record HttpEnv : Type := {
  producer_send_ok : bool;                    (* line 191 *)
  Transaction_find_ok : bool;                 (* line 204 *)
  Alert_find_ok : bool;                       (* line 214 *)
  count_transactions_ok : bool;               (* line 224 *)
  count_alerts_ok : bool;                     (* line 225 *)
  count_critical_ok : bool;                   (* line 226 *)
  count_pending_ok : bool;                    (* line 227 *)
  CLEANUP_PASSWORD : option string;           (* [process.env.CLEANUP_PASSWORD] *)
  isoNow : string;                            (* [new Date().toISOString()] *)
  Transaction_deleteMany_ok : bool;           (* line 296 *)
  Alert_deleteMany_ok : bool;                 (* line 297 *)
  recount_transactions_ok : bool;             (* line 299 *)
  recount_alerts_ok : bool;                   (* line 300 *)
  JSON_stringify : json -> string;
  toFixed1 : number -> string;                (* [x.toFixed(1)] *)
  sort_transactions : list StoredTransaction -> list StoredTransaction;
                                              (* [.sort({ timestamp: -1 })] *)
  sort_alerts : list Alert -> list Alert      (* [.sort({ createdAt: -1 })] *)
}.

(** A rejected promise: of the producer, or of the document store. *)
Inductive fault : Type :=
| PublishFault
| StoreFault.

(** Handlers over [World] that may reject. *)
Definition W (A : Type) : Type := World -> (fault + A) * World.

Definition wret {A} (a : A) : W A := fun w => (inr a, w).

Definition wbind {A B} (m : W A) (k : A -> W B) : W B :=
  fun w =>
    match m w with
    | (inr a, w') => k a w'
    | (inl f, w') => (inl f, w')
    end.

(** [try { m } catch (error) { handler error }]. *)
Definition wtry {A} (m : W A) (handler : fault -> W A) : W A :=
  fun w =>
    match m w with
    | (inr a, w') => (inr a, w')
    | (inl f, w') => handler f w'
    end.

Notation "x <== m ;; k" := (wbind m (fun x => k))
  (at level 61, m at next level, right associativity).

Definition wlog (ev : event) : W unit :=
  fun w => (inr tt, {| sys := sys w; topic := topic w;
                       journal := journal w ++ [ev] |}).

(** An awaited call that rejects with [f] unless [ok]. *)
Definition await (ok : bool) (f : fault) : W unit :=
  fun w => if ok then (inr tt, w) else (inl f, w).

Definition set_collections (txs : list StoredTransaction) (als : list Alert)
    (w : World) : World :=
  {| sys := {| transactions := txs; alerts := als; console := console (sys w) |};
     topic := topic w;
     journal := journal w |}.

(** *** Submission, [POST /api/transactions] (lines 189-200) *)

Inductive submit_response : Type :=
| Submit_ok                         (* [{ success: true }] *)
| Submit_500 (f : fault).

(** Modelled from the spec: the transport's publish (section 6), which
    belongs to the kafkajs package; [await producer.send(...)] appends the
    value to the topic, or rejects. *)
Definition producer_send (e : HttpEnv) (value : string) : W unit :=
  fun w =>
    if producer_send_ok e then
      (inr tt, {| sys := sys w; topic := topic w ++ [value];
                  journal := journal w |})
    else (inl PublishFault, w).

Definition submit (e : HttpEnv) (body : json) : W submit_response :=
  wtry
    (_ <== producer_send e (JSON_stringify e body) ;;
     wret Submit_ok)
    (fun error => _ <== wlog Error_publish ;; wret (Submit_500 error)).

(** *** Listings, [GET /api/transactions] and [GET /api/alerts]
    (lines 202-220) *)

Inductive list_response (A : Type) : Type :=
| List_ok (data : list A)           (* [{ success: true, data }] *)
| List_500 (f : fault).
Arguments List_ok {A} data.
Arguments List_500 {A} f.

(** [.limit(5000)]. *)
Definition page_limit : nat := 5000.

(** Modelled from the spec: the document store's sorted, limited find
    (section 6), which belongs to the Mongoose package;
    [await Model.find().sort(...).limit(5000)] answers the first 5000
    documents of the collection in the store's sorted order, or rejects. *)
Definition find_sorted_limited {A} (ok : bool) (sort : list A -> list A)
    (collection : World -> list A) : W (list A) :=
  fun w =>
    if ok then (inr (firstn page_limit (sort (collection w))), w)
    else (inl StoreFault, w).

Definition list_transactions (e : HttpEnv) : W (list_response StoredTransaction) :=
  wtry
    (found <== find_sorted_limited (Transaction_find_ok e) (sort_transactions e)
                 (fun w => transactions (sys w)) ;;
     wret (List_ok found))
    (fun error => _ <== wlog Error_fetch_transactions ;; wret (List_500 error)).

Definition list_alerts (e : HttpEnv) : W (list_response Alert) :=
  wtry
    (found <== find_sorted_limited (Alert_find_ok e) (sort_alerts e)
                 (fun w => alerts (sys w)) ;;
     wret (List_ok found))
    (fun error => _ <== wlog Error_fetch_alerts ;; wret (List_500 error)).

(** *** Statistics, [GET /api/stats] (lines 222-243) *)

Record StatsData : Type := {
  totalTransactions : Z;
  totalAlerts : Z;
  criticalAlerts : Z;
  pendingAlerts : Z;
  alertRate : string
}.

Inductive stats_response : Type :=
| Stats_ok (data : StatsData)
| Stats_500 (f : fault).

(** Modelled from the spec: the document store's [countDocuments] (section
    6), which belongs to the Mongoose package: the number of documents of
    the collection that match the filter, or a rejection. *)
Definition countDocuments {A} (ok : bool) (matches : A -> bool)
    (collection : World -> list A) : W Z :=
  fun w =>
    if ok then (inr (Z.of_nat (List.length (filter matches (collection w)))), w)
    else (inl StoreFault, w).

(** [{ riskLevel: 'CRITICAL' }] and [{ status: 'PENDING' }]. *)
Definition is_critical (a : Alert) : bool := level_eqb (al_riskLevel a) CRITICAL.
Definition is_pending (a : Alert) : bool := is_string (status a) "PENDING".

(** [totalTx > 0 ? ((totalAlerts / totalTx) * 100).toFixed(1) : '0.0']. *)
Definition alert_rate (e : HttpEnv) (totalAlerts totalTx : Z) : string :=
  if (0 <? totalTx)%Z then
    toFixed1 e
      (SFmul Num.prec Num.emax
         (SFdiv Num.prec Num.emax (Num.of_Z totalAlerts) (Num.of_Z totalTx))
         (Num.of_Z 100))
  else "0.0".

Definition stats (e : HttpEnv) : W stats_response :=
  wtry
    (totalTx <== countDocuments (count_transactions_ok e) (fun _ => true)
                   (fun w => transactions (sys w)) ;;
     totalAlerts <== countDocuments (count_alerts_ok e) (fun _ => true)
                       (fun w => alerts (sys w)) ;;
     criticalAlerts <== countDocuments (count_critical_ok e) is_critical
                          (fun w => alerts (sys w)) ;;
     pendingAlerts <== countDocuments (count_pending_ok e) is_pending
                         (fun w => alerts (sys w)) ;;
     wret (Stats_ok {| totalTransactions := totalTx;
                       totalAlerts := totalAlerts;
                       criticalAlerts := criticalAlerts;
                       pendingAlerts := pendingAlerts;
                       alertRate := alert_rate e totalAlerts totalTx |}))
    (fun error => _ <== wlog Error_stats ;; wret (Stats_500 error)).

(** *** Maintenance, [DELETE /api/cleanup/all] (lines 269-325) *)

Inductive cleanup_response : Type :=
| Cleanup_401                       (* 'MISSING_PASSWORD' *)
| Cleanup_403                       (* 'INVALID_PASSWORD' *)
| Cleanup_ok (timestamp : string)
             (deleted_transactions deleted_alerts : Z)
             (remaining_transactions remaining_alerts : Z)
| Cleanup_500 (f : fault).

(** Line 272: [process.env.CLEANUP_PASSWORD || '140301']. *)
Definition cleanup_password (e : HttpEnv) : string :=
  match CLEANUP_PASSWORD e with
  | Some s => if negb (String.eqb s "") then s else "140301"
  | None => "140301"
  end.

(** Modelled from the spec: the document store's [deleteMany] (section 6),
    which belongs to the Mongoose package; [await Model.deleteMany({})]
    empties the collection and answers how many documents it held, or
    rejects and leaves it as it was. *)
Definition Transaction_deleteMany (e : HttpEnv) : W Z :=
  fun w =>
    if Transaction_deleteMany_ok e then
      (inr (Z.of_nat (List.length (transactions (sys w)))),
       set_collections [] (alerts (sys w)) w)
    else (inl StoreFault, w).

Definition Alert_deleteMany (e : HttpEnv) : W Z :=
  fun w =>
    if Alert_deleteMany_ok e then
      (inr (Z.of_nat (List.length (alerts (sys w)))),
       set_collections (transactions (sys w)) [] w)
    else (inl StoreFault, w).

(** [password] is [req.body.password]; the body is given as for the review
    endpoint. *)
Definition cleanup (e : HttpEnv) (body : list (string * json)) : W cleanup_response :=
  wtry
    (let password := lookup "password" body in
     if negb (truthy password) then
       wret Cleanup_401
     else if negb (is_string password (cleanup_password e)) then
       _ <== wlog (Warn_failed_cleanup (isoNow e)) ;;
       wret Cleanup_403
     else
       let timestamp := isoNow e in
       _ <== wlog (Info_cleanup_requested timestamp) ;;
       deletedTransactions <== Transaction_deleteMany e ;;
       deletedAlerts <== Alert_deleteMany e ;;
       txCount <== countDocuments (recount_transactions_ok e) (fun _ => true)
                     (fun w => transactions (sys w)) ;;
       alertCount <== countDocuments (recount_alerts_ok e) (fun _ => true)
                        (fun w => alerts (sys w)) ;;
       _ <== wlog Info_cleanup_completed ;;
       _ <== wlog (Info_cleanup_deleted deletedTransactions deletedAlerts) ;;
       wret (Cleanup_ok timestamp deletedTransactions deletedAlerts
                        txCount alertCount))
    (fun error => _ <== wlog Error_cleanup ;; wret (Cleanup_500 error)).

(** *** The consumer seen from [World] *)

(** One delivery of the value at the head of the topic to [eachMessage]. *)
Definition deliver (h : Host) (env : Env) : W unit :=
  fun w =>
    match topic w with
    | [] => (inr tt, w)
    | value :: rest =>
        (inr tt,
         {| sys := snd (eachMessage h env {| msg_value := Some value |} (sys w));
            topic := rest;
            journal := journal w |})
    end.

(* ------------------------------------------------------------------ *)
(** ** The rule table of the specification (section 4.1)

    Written from the table, not from the code: one row per line of the
    table, each with its weight, its code and its condition on the payload.
    The last row is evaluated at the hour of the resolved timestamp. *)

Record rule_row : Type := {
  row_code : string;
  row_weight : number;
  row_holds : bool
}.

Module Spec.

(** Typed views of the optional fields of the data model (section 3). *)
Definition numeric (txn : json) (k : string) : option number :=
  match prop txn k with
  | Some (JNum n) => Some n
  | _ => None
  end.

Definition textual (txn : json) (k : string) : option string :=
  match prop txn k with
  | Some (JStr s) => Some s
  | _ => None
  end.

Definition boolean (txn : json) (k : string) : option bool :=
  match prop txn k with
  | Some (JBool b) => Some b
  | _ => None
  end.

Definition flag (txn : json) (k : string) : bool := truthy (prop txn k).

Definition location_risk (txn : json) : option string :=
  match prop txn "location" with
  | Some (JObj members) =>
      match lookup "risk" members with
      | Some (JStr s) => Some s
      | _ => None
      end
  | _ => None
  end.

Definition reads (o : option string) (s : string) : bool :=
  match o with Some t => String.eqb t s | None => false end.

Definition reads_false (o : option bool) : bool :=
  match o with Some false => true | _ => false end.

Definition holds_num (o : option number) (p : number -> bool) : bool :=
  match o with Some n => p n | None => false end.

Definition one_of (o : option string) (l : list string) : bool :=
  match o with Some s => existsb (String.eqb s) l | None => false end.

Definition contains_one_of (o : option string) (l : list string) : bool :=
  match o with Some s => existsb (fun m => includes s m) l | None => false end.

(** [amount > 100000]. *)
Definition high_amount (txn : json) : bool :=
  holds_num (numeric txn "amount") (fun n => Num.gtb n (Num.of_Z 100000)).

(** [50000 < amount <= 100000]. *)
Definition medium_amount (txn : json) : bool :=
  holds_num (numeric txn "amount")
    (fun n => Num.ltb (Num.of_Z 50000) n && Num.leb n (Num.of_Z 100000)).

Definition row (c : string) (w : number) (b : bool) : rule_row :=
  {| row_code := c; row_weight := w; row_holds := b |}.

Definition table (txn : json) (hour : option Z) : list rule_row :=
  [ row "HIGH_RISK_GEOGRAPHY" (Num.dec 50 100)
      (reads (location_risk txn) "high");
    row "CVV_VERIFICATION_FAILED" (Num.dec 30 100)
      (reads_false (boolean txn "cvvMatch"));
    row "ADDRESS_VERIFICATION_FAILED" (Num.dec 15 100)
      (reads_false (boolean txn "avsMatch"));
    row "UNUSUAL_TRANSACTION_AMOUNT" (Num.dec 20 100)
      (high_amount txn);
    row "UNUSUAL_TRANSACTION_AMOUNT" (Num.dec 10 100)
      (medium_amount txn);
    row "HIGH_RISK_MERCHANT" (Num.dec 30 100)
      (contains_one_of (textual txn "merchant")
         ["UNKNOWN_MERCHANT"; "CRYPTO_EXCHANGE"; "OFFSHORE_CASINO"; "HIGH_RISK_VENDOR"]);
    row "HIGH_RISK_MERCHANT_CATEGORY" (Num.dec 25 100)
      (one_of (textual txn "category")
         ["GAMBLING"; "CRYPTO"; "WIRE_TRANSFER"; "GIFT_CARDS"]);
    row "SUSPICIOUS_DEVICE" (Num.dec 20 100)
      (one_of (textual txn "device")
         ["Emulator"; "Unknown Device"; "Rooted Android"; "Jailbroken iPhone"]);
    row "VPN_OR_PROXY_DETECTED" (Num.dec 15 100)
      (flag txn "isVPN" || flag txn "isTor");
    row "CARD_TESTING_PATTERN" (Num.dec 30 100)
      (holds_num (numeric txn "previousDeclines")
         (fun n => Num.isInteger n && Num.geb n (Num.of_Z 3)));
    row "NEW_ACCOUNT_RISK" (Num.dec 10 100)
      (holds_num (numeric txn "accountAge")
         (fun n => Num.ltb n (Num.of_Z 30)));
    row "UNUSUAL_TRANSACTION_TIME" (Num.dec 8 100)
      (match hour with
       | Some k => (23 <=? k)%Z || (k <=? 5)%Z
       | None => false
       end) ].

(** The weights of the table as the decimal fractions it prints. *)
Definition decimal_weights : list Q :=
  [ 50 # 100; 30 # 100; 15 # 100; 20 # 100; 10 # 100; 30 # 100;
    25 # 100; 20 # 100; 15 # 100; 30 # 100; 10 # 100; 8 # 100 ]%Q.

(** The decimal weights selected by a vector of row outcomes, summed
    exactly. *)
Definition exact_sum (flags : list bool) : Q :=
  fold_left Qplus (map snd (filter fst (combine flags decimal_weights))) 0%Q.

(** The exact sum of the weights of the matching rows. *)
Definition exact_score (txn : json) (hour : option Z) : Q :=
  exact_sum (map row_holds (table txn hour)).

(** Sections 4.2 and 4.3 read on the exact sum. *)
Definition exact_level (e : Q) : riskLevel :=
  if Qle_bool (70 # 100) e then CRITICAL
  else if Qle_bool (50 # 100) e then HIGH
  else if Qle_bool (30 # 100) e then MEDIUM
  else LOW.

Definition exact_alert (e : Q) : bool := Qle_bool (40 # 100) e.

(** The rows whose condition the payload satisfies, in table order. *)
Definition matching (txn : json) (hour : option Z) : list rule_row :=
  filter row_holds (table txn hour).

(** The sum of their weights, accumulated in table order from 0. *)
Definition sum_weights (rows : list rule_row) (from : number) : number :=
  fold_left Num.add (map row_weight rows) from.

Definition score (txn : json) (hour : option Z) : number :=
  sum_weights (matching txn hour) (Num.of_Z 0).

End Spec.

(* ------------------------------------------------------------------ *)
(** ** Notions used in the statements and proofs *)

(** [f] does to the accumulator what the rows [rows] prescribe. *)
Definition refines (f : acc -> acc) (rows : list rule_row) : Prop :=
  forall a,
    score (f a) = Spec.sum_weights (filter row_holds rows) (score a) /\
    map code (indicators (f a))
    = map code (indicators a) ++ map row_code (filter row_holds rows).

(** Lines 80-83 once the message has been rendered as [m]. *)
Definition geography_step (m : string) (txn : json) (a : acc) : acc :=
  if is_string (opt_prop (prop txn "location") "risk") "high" then
    fire (Num.dec 5 10) "HIGH_RISK_GEOGRAPHY" m a
  else a.

(** Lines 85-141 once [txnTime] is known to be [t]. *)
Definition rules_after_geography (h : Host) (txn : json) (t : Date)
    : list (acc -> acc) :=
  [ rule_cvv txn; rule_avs txn; rule_amount h txn; rule_merchant txn;
    rule_category txn; rule_device txn; rule_vpn txn; rule_declines h txn;
    rule_account_age txn; rule_time h t ].

(** The members of the payload that lines 77-141 read. *)
Definition scoring_members : list string :=
  [ "location"; "cvvMatch"; "avsMatch"; "amount"; "merchant"; "category";
    "device"; "isVPN"; "isTor"; "previousDeclines"; "accountAge"; "timestamp" ].

(** The codes of the table, and those selected by a vector of row
    outcomes. *)
Definition table_codes : list string :=
  map row_code (Spec.table JNull None).

Definition selected_codes (flags : list bool) : list string :=
  map snd (filter fst (combine flags table_codes)).

(** No string occurs twice. *)
Fixpoint distinctb (l : list string) : bool :=
  match l with
  | [] => true
  | x :: rest => negb (existsb (String.eqb x) rest) && distinctb rest
  end.

(** The number of commas of a string. *)
Fixpoint commas (s : string) : nat :=
  match s with
  | EmptyString => O
  | String c rest => if Ascii.eqb c "," then S (commas rest) else commas rest
  end.

(** What holds of an alert the message handler has just created. *)
Definition fresh_alert (al : Alert) : Prop :=
  status al = Some (JStr "PENDING")
  /\ assignedTo al = None /\ reviewedAt al = None
  /\ action al = None /\ comments al = None
  /\ al_riskLevel al = classify (al_mlScore al)
  /\ alert_due (al_mlScore al) = true
  /\ al_riskLevel al <> LOW.

(** The alert and the stored transaction describe the same assessment. *)
Definition alert_matches (al : Alert) (d : StoredTransaction) : Prop :=
  al_transactionId al = tx_transactionId d
  /\ al_mlScore al = tx_mlScore d
  /\ al_riskLevel al = tx_riskLevel d
  /\ map message (reasons al) = tx_fraudIndicators d.

(** [a] comes before [b] in a listing sorted by [createdAt], newest first. *)
Definition alert_not_older (a b : Alert) : Prop := (createdAt b <= createdAt a)%Z.

(** The same for [timestamp]; an Invalid Date sorts after every date. *)
Definition date_not_older (x y : Date) : Prop :=
  match x, y with
  | _, None => True
  | None, Some _ => False
  | Some tx, Some ty => (ty <= tx)%Z
  end.

Definition transaction_not_older (a b : StoredTransaction) : Prop :=
  date_not_older (tx_timestamp a) (tx_timestamp b).

(** The state [s] with more console output. *)
Definition with_console (s : Sys) (ds : list diag) : Sys :=
  {| transactions := transactions s;
     alerts := alerts s;
     console := console s ++ ds |}.

(** All boolean vectors of a given length. *)
Fixpoint bool_vectors (n : nat) : list (list bool) :=
  match n with
  | O => [[]]
  | S k => flat_map (fun v => [true :: v; false :: v]) (bool_vectors k)
  end.

(** The weights selected by a vector of row outcomes. *)
Definition pick (flags : list bool) (ws : list number) : list number :=
  map snd (filter fst (combine flags ws)).

Definition table_weights : list number :=
  map row_weight (Spec.table JNull None).

Definition flag_score (flags : list bool) : number :=
  fold_left Num.add (pick flags table_weights) (Num.of_Z 0).

(** The two amount rows (fourth and fifth) do not hold together. *)
Definition exclusive (flags : list bool) : bool :=
  negb (nth 3 flags false && nth 4 flags false).

(** 0.5 + 0.3 + 0.15 + 0.2 + 0.3 + 0.25 + 0.2 + 0.15 + 0.3 + 0.1 + 0.08 in
    binary64, left to right: 2.5300000000000002. *)
Definition max_score : number :=
  flag_score [true; true; true; true; false; true; true; true; true; true; true; true].

(* ------------------------------------------------------------------ *)
(** ** Concrete hosts, environments and payloads used in examples *)

Fixpoint assoc {A : Type} (k : string) (l : list (string * A)) : option A :=
  match l with
  | [] => None
  | (k', v) :: rest => if String.eqb k k' then Some v else assoc k rest
  end.

(** A host in UTC whose JSON and date parsers are given as finite tables:
    a text that is not listed is rejected. *)
Definition table_host (jsons : list (string * json))
    (dates : list (string * Z)) : Host :=
  {| JSON_parse := fun s => assoc s jsons;
     Date_parse := fun s => assoc s dates;
     LocalTime := fun t => t;
     NumberToString := fun _ => "?";
     toLocaleString := fun _ => "?" |}.

(** The cast of a value that is not a string to a [String] path, in the
    examples: [null] stays, a boolean or a number is rendered (a number the
    way the example hosts render it), an array or an object is refused. *)
Definition example_cast (v : json) : option json :=
  match v with
  | JNull => Some JNull
  | JBool b => Some (JStr (if b then "true" else "false"))
  | JNum _ => Some (JStr "?")
  | JStr text => Some (JStr text)
  | JArr _ | JObj _ => None
  end.

(** A store that is up and accepts every document its schema can hold. *)
Definition env_at (clock : Z) : Env :=
  {| now := clock;
     alertNow := clock;
     random5 := "k3x9q";
     createdNow := clock;
     reviewNow := clock;
     Transaction_create_ok := valid_timestamp;
     Alert_create_ok := fun _ => true;
     Alert_update_ok := true;
     castString := example_cast |}.

(** A store without validation: it accepts every write. *)
Definition env_lenient (clock : Z) : Env :=
  {| now := clock;
     alertNow := clock;
     random5 := "k3x9q";
     createdNow := clock;
     reviewNow := clock;
     Transaction_create_ok := fun _ => true;
     Alert_create_ok := fun _ => true;
     Alert_update_ok := true;
     castString := example_cast |}.

Definition empty_sys : Sys :=
  {| transactions := []; alerts := []; console := [] |}.

(** [{cvvMatch: false, avsMatch: false}]. *)
Definition failed_checks_txn : json :=
  JObj [ ("cvvMatch", JBool false); ("avsMatch", JBool false) ].

(** 2026-01-01T12:00:00Z and 2026-01-01T02:00:00Z. *)
Definition noon : Z := 1767268800000.
Definition two_am : Z := 1767232800000.

(** [{location: {risk: "high"}, cvvMatch: false, amount: 150000}]. *)
Definition example_txn : json :=
  JObj [ ("location", JObj [("risk", JStr "high")]);
         ("cvvMatch", JBool false);
         ("amount", JNum (Num.of_Z 150000)) ].

(** The double-quote character and a quoted JSON string. *)
Definition dq : string := String (ascii_of_nat 34) EmptyString.
Definition quoted (s : string) : string := dq ++ s ++ dq.

(** [{"id":"t1","location":{"risk":"high"},"cvvMatch":false,"amount":150000}] *)
Definition risky_raw : string :=
  "{" ++ quoted "id" ++ ":" ++ quoted "t1" ++ "," ++
  quoted "location" ++ ":{" ++ quoted "risk" ++ ":" ++ quoted "high" ++ "}," ++
  quoted "cvvMatch" ++ ":false," ++ quoted "amount" ++ ":150000}".

Definition risky_txn : json :=
  JObj [ ("id", JStr "t1");
         ("location", JObj [("risk", JStr "high")]);
         ("cvvMatch", JBool false);
         ("amount", JNum (Num.of_Z 150000)) ].

(** [{"amount":75000}] *)
Definition anonymous_raw : string := "{" ++ quoted "amount" ++ ":75000}".

Definition anonymous_txn : json := JObj [("amount", JNum (Num.of_Z 75000))].

(** [{"id":"t3","timestamp":"not-a-date"}] *)
Definition undated_raw : string :=
  "{" ++ quoted "id" ++ ":" ++ quoted "t3" ++ "," ++
  quoted "timestamp" ++ ":" ++ quoted "not-a-date" ++ "}".

Definition undated_txn : json :=
  JObj [("id", JStr "t3"); ("timestamp", JStr "not-a-date")].

(** [{"id":"t6","timestamp":{"toString":1}}] *)
Definition unconvertible_raw : string :=
  "{" ++ quoted "id" ++ ":" ++ quoted "t6" ++ "," ++
  quoted "timestamp" ++ ":{" ++ quoted "toString" ++ ":1}}".

Definition unconvertible_txn : json :=
  JObj [ ("id", JStr "t6");
         ("timestamp", JObj [("toString", JNum (Num.of_Z 1))]) ].

(** A host that parses the four texts above and no date text. *)
Definition example_host : Host :=
  table_host [ (risky_raw, risky_txn);
               (anonymous_raw, anonymous_txn);
               (undated_raw, undated_txn);
               (unconvertible_raw, unconvertible_txn) ] [].

Definition msg_of (raw : string) : KafkaMessage := {| msg_value := Some raw |}.

(** A feed of three deliveries: a null value, a text that is not JSON, and
    the risky message. *)
Definition troubled_feed : list (Env * KafkaMessage) :=
  [ (env_at noon, {| msg_value := None |});
    (env_at noon, msg_of "{not json");
    (env_at noon, msg_of risky_raw) ].

(** A store that refuses every transaction write. *)
Definition env_tx_refused (clock : Z) : Env :=
  {| now := clock;
     alertNow := clock;
     random5 := "k3x9q";
     createdNow := clock;
     reviewNow := clock;
     Transaction_create_ok := fun _ => false;
     Alert_create_ok := fun _ => true;
     Alert_update_ok := true;
     castString := example_cast |}.

(** The accumulator an evaluation ends with, when it returns. *)
Definition evaluated (h : Host) (now : Z) (txn : json) : acc :=
  match evaluate h now txn with
  | Ok (a, _) => a
  | Throw _ => acc0
  end.

(** A store holding the alert raised by the risky message, and a review. *)
Definition pending_alert : Alert :=
  alert_doc (env_at noon) risky_txn (identifier risky_txn)
    (evaluated example_host noon risky_txn).

Definition one_alert_sys : Sys :=
  {| transactions := []; alerts := [pending_alert]; console := [] |}.

Definition approve (id : string) : ReviewRequest :=
  {| params_alertId := id;
     body := [ ("action", JStr "APPROVED");
               ("comments", JStr "verified with customer");
               ("assignedTo", JStr "analyst1") ] |}.

(** A payload that triggers every rule of lines 80-134. *)
Definition saturated_txn : json :=
  JObj [ ("id", JStr "t9");
         ("location", JObj [("risk", JStr "high"); ("country", JStr "XX")]);
         ("cvvMatch", JBool false);
         ("avsMatch", JBool false);
         ("amount", JNum (Num.of_Z 150000));
         ("merchant", JStr "CRYPTO_EXCHANGE_LTD");
         ("category", JStr "CRYPTO");
         ("device", JStr "Emulator");
         ("isTor", JBool true);
         ("previousDeclines", JNum (Num.of_Z 5));
         ("accountAge", JNum (Num.of_Z 3)) ].

(** Insertion sort by a boolean order, to stand for the store's sort in
    examples. *)
Fixpoint insert_by {A} (before : A -> A -> bool) (x : A) (l : list A) : list A :=
  match l with
  | [] => [x]
  | y :: rest => if before x y then x :: y :: rest else y :: insert_by before x rest
  end.

Fixpoint sort_by {A} (before : A -> A -> bool) (l : list A) : list A :=
  match l with
  | [] => []
  | x :: rest => insert_by before x (sort_by before rest)
  end.

Definition date_not_older_b (x y : Date) : bool :=
  match x, y with
  | _, None => true
  | None, Some _ => false
  | Some tx, Some ty => (ty <=? tx)%Z
  end.

(** Everything succeeds; the cleanup variable is unset. *)
Definition http_env_ok : HttpEnv :=
  {| producer_send_ok := true;
     Transaction_find_ok := true;
     Alert_find_ok := true;
     count_transactions_ok := true;
     count_alerts_ok := true;
     count_critical_ok := true;
     count_pending_ok := true;
     CLEANUP_PASSWORD := None;
     isoNow := "2026-01-01T12:00:00.000Z";
     Transaction_deleteMany_ok := true;
     Alert_deleteMany_ok := true;
     recount_transactions_ok := true;
     recount_alerts_ok := true;
     JSON_stringify :=
       fun v => if is_string (prop v "id") "t1" then risky_raw else "{}";
     toFixed1 := fun _ => "?";
     sort_transactions :=
       sort_by (fun a b => date_not_older_b (tx_timestamp a) (tx_timestamp b));
     sort_alerts := sort_by (fun a b => (createdAt b <=? createdAt a)%Z) |}.

(** The same, but the store rejects the deletion of the alerts. *)
Definition http_env_alerts_stuck : HttpEnv :=
  {| producer_send_ok := true;
     Transaction_find_ok := true;
     Alert_find_ok := true;
     count_transactions_ok := true;
     count_alerts_ok := true;
     count_critical_ok := true;
     count_pending_ok := true;
     CLEANUP_PASSWORD := Some "";
     isoNow := "2026-01-01T12:00:00.000Z";
     Transaction_deleteMany_ok := true;
     Alert_deleteMany_ok := false;
     recount_transactions_ok := true;
     recount_alerts_ok := true;
     JSON_stringify := JSON_stringify http_env_ok;
     toFixed1 := toFixed1 http_env_ok;
     sort_transactions := sort_transactions http_env_ok;
     sort_alerts := sort_alerts http_env_ok |}.

(** The state after the risky message was consumed at noon: one transaction
    and one alert; nothing published, nothing logged by the endpoints. *)
Definition busy_world : World :=
  {| sys := snd (eachMessage example_host (env_at noon) (msg_of risky_raw) empty_sys);
     topic := [];
     journal := [] |}.

Definition empty_world : World :=
  {| sys := empty_sys; topic := []; journal := [] |}.

(** Two transactions and two alerts stored oldest first. *)
Definition early_alert : Alert :=
  alert_doc (env_at two_am) risky_txn (identifier risky_txn)
    (evaluated example_host two_am risky_txn).

Definition early_transaction : StoredTransaction :=
  transaction_doc risky_txn (identifier risky_txn)
    (evaluated example_host two_am risky_txn) (Some two_am).

Definition late_transaction : StoredTransaction :=
  transaction_doc risky_txn (identifier risky_txn)
    (evaluated example_host noon risky_txn) (Some noon).

Definition listing_world : World :=
  {| sys := {| transactions := [early_transaction; late_transaction];
               alerts := [early_alert; pending_alert];
               console := [] |};
     topic := [];
     journal := [] |}.

(** A store that rejects the update of an alert. *)
Definition env_update_refused (clock : Z) : Env :=
  {| now := clock;
     alertNow := clock;
     random5 := "k3x9q";
     createdNow := clock;
     reviewNow := clock;
     Transaction_create_ok := valid_timestamp;
     Alert_create_ok := fun _ => true;
     Alert_update_ok := false;
     castString := example_cast |}.

(** A review that sets only an action. *)
Definition escalate (id : string) : ReviewRequest :=
  {| params_alertId := id; body := [ ("action", JStr "ESCALATED") ] |}.

(** A review that carries only a comment, and one whose action is an
    object. *)
Definition remark (id : string) : ReviewRequest :=
  {| params_alertId := id; body := [ ("comments", JStr "call back") ] |}.

Definition malformed_review (id : string) : ReviewRequest :=
  {| params_alertId := id; body := [ ("action", JObj []) ] |}.

(** [{"id":"t7","cvvMatch":false}]. *)
Definition lone_cvv_txn : json :=
  JObj [ ("id", JStr "t7"); ("cvvMatch", JBool false) ].

(** [{"id":"t4","amount":"150000","previousDeclines":3.5}] and
    [{"id":"t5","previousDeclines":"5"}]. *)
Definition mistyped_txn : json :=
  JObj [ ("id", JStr "t4");
         ("amount", JStr "150000");
         ("previousDeclines", JNum (Num.dec 35 10)) ].

Definition text_declines_txn : json :=
  JObj [ ("id", JStr "t5"); ("previousDeclines", JStr "5") ].

(* ------------------------------------------------------------------ *)
(** * Properties *)

(* ------------------------------------------------------------------ *)
(** ** Comparisons of numbers *)

Lemma SFcompare_antisym (x y : number) :
  SFcompare x y = option_map CompOpp (SFcompare y x).
Proof.
  destruct x as [sx|sx| |sx mx ex], y as [sy|sy| |sy my ey]; simpl;
    try reflexivity;
    try (destruct sx; reflexivity);
    try (destruct sy; reflexivity);
    try (destruct sx, sy; reflexivity).
  rewrite (Z.compare_antisym ey ex).
  change (Pos.compare_cont Eq mx my) with (Pos.compare mx my).
  change (Pos.compare_cont Eq my mx) with (Pos.compare my mx).
  rewrite (Pos.compare_antisym my mx).
  destruct sx, sy; simpl; try reflexivity;
    destruct (ey ?= ex)%Z; reflexivity.
Qed.

(** [!(n > c)] and [n <= c] agree as soon as [n] is not NaN. *)
Lemma not_gtb_leb (n c : number) :
  SFcompare n c <> None -> negb (Num.gtb n c) = Num.leb n c.
Proof.
  unfold Num.gtb, Num.leb, SFltb, SFleb. intros Hc.
  rewrite (SFcompare_antisym c n).
  destruct (SFcompare n c) as [[ | | ]|]; simpl; congruence.
Qed.

Lemma gtb_comparable (n c c' : number) :
  Num.gtb n c = true -> c' <> S754_nan -> SFcompare n c' <> None.
Proof.
  unfold Num.gtb, SFltb. intros Hgt Hc'.
  destruct n; try (destruct c; discriminate);
    destruct c'; simpl; congruence.
Qed.

(** The [else if] of lines 95-101 against the closed interval of the table. *)
Lemma medium_amount_agree (n : number) :
  negb (Num.gtb n (Num.of_Z 100000)) && Num.gtb n (Num.of_Z 50000)
  = Num.ltb (Num.of_Z 50000) n && Num.leb n (Num.of_Z 100000).
Proof.
  change (Num.ltb (Num.of_Z 50000) n) with (Num.gtb n (Num.of_Z 50000)).
  destruct (Num.gtb n (Num.of_Z 50000)) eqn:Hm.
  - rewrite !andb_true_r, andb_true_l.
    apply not_gtb_leb.
    apply (gtb_comparable _ _ _ Hm). discriminate.
  - now rewrite !andb_false_r.
Qed.

(* ------------------------------------------------------------------ *)
(** ** The evaluator refines the table *)

Lemma refines_guard (b : bool) (w : number) (c m : string) :
  refines (fun a => if b then fire w c m a else a) [Spec.row c w b].
Proof.
  intros a. destruct b; simpl.
  - split; [reflexivity | now rewrite map_app].
  - split; [reflexivity | now rewrite app_nil_r].
Qed.

Lemma refines_comp (f g : acc -> acc) (r1 r2 : list rule_row) :
  refines f r1 -> refines g r2 -> refines (fun a => g (f a)) (r1 ++ r2).
Proof.
  intros Hf Hg a.
  destruct (Hf a) as [Hs Hc], (Hg (f a)) as [Hs' Hc'].
  rewrite Hs', Hc', Hs, Hc, filter_app, map_app.
  unfold Spec.sum_weights. rewrite map_app, fold_left_app, app_assoc.
  split; reflexivity.
Qed.

Lemma refines_ext (f : acc -> acc) (rows rows' : list rule_row) :
  rows = rows' -> refines f rows -> refines f rows'.
Proof. now intros ->. Qed.

Lemma location_risk_agree (txn : json) :
  is_string (opt_prop (prop txn "location") "risk") "high"
  = Spec.reads (Spec.location_risk txn) "high".
Proof.
  unfold Spec.location_risk, Spec.reads, is_string, opt_prop.
  destruct (prop txn "location") as [[ | | | | |ms]|]; simpl; try reflexivity.
  destruct (lookup "risk" ms) as [[ | | | | | ]|]; reflexivity.
Qed.

Lemma is_false_agree (txn : json) (k : string) :
  is_false (prop txn k) = Spec.reads_false (Spec.boolean txn k).
Proof.
  unfold is_false, Spec.reads_false, Spec.boolean.
  destruct (prop txn k) as [[ |[]| | | | ]|]; reflexivity.
Qed.

Lemma number_test_agree (txn : json) (k : string) (p : number -> bool) :
  match as_number (prop txn k) with Some n => p n | None => false end
  = Spec.holds_num (Spec.numeric txn k) p.
Proof.
  unfold Spec.holds_num, Spec.numeric, as_number.
  destruct (prop txn k) as [[ | | | | | ]|]; reflexivity.
Qed.

Lemma list_includes_agree (txn : json) (k : string) (l : list string) :
  list_includes l (prop txn k) = Spec.one_of (Spec.textual txn k) l.
Proof.
  unfold list_includes, Spec.one_of, Spec.textual.
  destruct (prop txn k) as [[ | | | | | ]|]; reflexivity.
Qed.

Lemma merchant_agree (txn : json) :
  merchant_suspicious (prop txn "merchant")
  = Spec.contains_one_of (Spec.textual txn "merchant") suspiciousMerchants.
Proof.
  unfold merchant_suspicious, Spec.contains_one_of, Spec.textual, as_string.
  destruct (prop txn "merchant") as [[ | | | | | ]|]; reflexivity.
Qed.

(** Lines 95-101 are the two amount rows of the table. *)
Lemma refines_amount (h : Host) (txn : json) :
  refines (rule_amount h txn)
    [ Spec.row "UNUSUAL_TRANSACTION_AMOUNT" (Num.dec 20 100) (Spec.high_amount txn);
      Spec.row "UNUSUAL_TRANSACTION_AMOUNT" (Num.dec 10 100) (Spec.medium_amount txn) ].
Proof.
  intros a. unfold rule_amount, number_above, Spec.high_amount, Spec.medium_amount.
  rewrite <- !number_test_agree.
  destruct (as_number (prop txn "amount")) as [n|]; cbv beta iota.
  - rewrite <- medium_amount_agree.
    destruct (Num.gtb n (Num.of_Z 100000));
      [ | destruct (Num.gtb n (Num.of_Z 50000)) ];
      (split; [ reflexivity | simpl; now rewrite ?map_app, ?app_nil_r ]).
  - split; [ reflexivity | simpl; now rewrite app_nil_r ].
Qed.

Lemma refines_geography (m : string) (txn : json) :
  refines (geography_step m txn)
    [Spec.row "HIGH_RISK_GEOGRAPHY" (Num.dec 50 100)
       (Spec.reads (Spec.location_risk txn) "high")].
Proof. unfold geography_step. rewrite location_risk_agree. apply refines_guard. Qed.

Lemma refines_cvv (txn : json) :
  refines (rule_cvv txn)
    [Spec.row "CVV_VERIFICATION_FAILED" (Num.dec 30 100)
       (Spec.reads_false (Spec.boolean txn "cvvMatch"))].
Proof. unfold rule_cvv. rewrite is_false_agree. apply refines_guard. Qed.

Lemma refines_avs (txn : json) :
  refines (rule_avs txn)
    [Spec.row "ADDRESS_VERIFICATION_FAILED" (Num.dec 15 100)
       (Spec.reads_false (Spec.boolean txn "avsMatch"))].
Proof. unfold rule_avs. rewrite is_false_agree. apply refines_guard. Qed.

Lemma refines_merchant (txn : json) :
  refines (rule_merchant txn)
    [Spec.row "HIGH_RISK_MERCHANT" (Num.dec 30 100)
       (Spec.contains_one_of (Spec.textual txn "merchant") suspiciousMerchants)].
Proof. unfold rule_merchant. rewrite merchant_agree. apply refines_guard. Qed.

Lemma refines_category (txn : json) :
  refines (rule_category txn)
    [Spec.row "HIGH_RISK_MERCHANT_CATEGORY" (Num.dec 25 100)
       (Spec.one_of (Spec.textual txn "category") suspiciousCategories)].
Proof. unfold rule_category. rewrite list_includes_agree. apply refines_guard. Qed.

Lemma refines_device (txn : json) :
  refines (rule_device txn)
    [Spec.row "SUSPICIOUS_DEVICE" (Num.dec 20 100)
       (Spec.one_of (Spec.textual txn "device") suspiciousDevices)].
Proof. unfold rule_device. rewrite list_includes_agree. apply refines_guard. Qed.

Lemma refines_vpn (txn : json) :
  refines (rule_vpn txn)
    [Spec.row "VPN_OR_PROXY_DETECTED" (Num.dec 15 100)
       (Spec.flag txn "isVPN" || Spec.flag txn "isTor")].
Proof. unfold rule_vpn. apply refines_guard. Qed.

Lemma refines_declines (h : Host) (txn : json) :
  refines (rule_declines h txn)
    [Spec.row "CARD_TESTING_PATTERN" (Num.dec 30 100)
       (Spec.holds_num (Spec.numeric txn "previousDeclines")
          (fun n => Num.isInteger n && Num.geb n (Num.of_Z 3)))].
Proof.
  unfold rule_declines, integer_at_least_3.
  rewrite (number_test_agree txn "previousDeclines"
             (fun n => Num.isInteger n && Num.geb n (Num.of_Z 3))).
  apply refines_guard.
Qed.

Lemma refines_account_age (txn : json) :
  refines (rule_account_age txn)
    [Spec.row "NEW_ACCOUNT_RISK" (Num.dec 10 100)
       (Spec.holds_num (Spec.numeric txn "accountAge")
          (fun n => Num.ltb n (Num.of_Z 30)))].
Proof.
  unfold rule_account_age, number_below_30.
  rewrite (number_test_agree txn "accountAge" (fun n => Num.ltb n (Num.of_Z 30))).
  apply refines_guard.
Qed.

Lemma refines_time (h : Host) (t : Date) :
  refines (rule_time h t)
    [Spec.row "UNUSUAL_TRANSACTION_TIME" (Num.dec 8 100)
       (match getHours h t with
        | Some k => (23 <=? k)%Z || (k <=? 5)%Z
        | None => false
        end)].
Proof. unfold rule_time, night_hour. apply refines_guard. Qed.

Create HintDb refinement.

#[local] Hint Resolve refines_geography refines_cvv refines_avs refines_amount
  refines_merchant refines_category refines_device refines_vpn
  refines_declines refines_account_age refines_time : refinement.

(** A sequence of statements against the concatenation of their rows. *)
Lemma refines_run (steps : list (acc -> acc)) (rowss : list (list rule_row)) :
  Forall2 refines steps rowss ->
  refines (fun a => fold_left (fun x f => f x) steps a) (List.concat rowss).
Proof.
  induction 1 as [|f rows steps rowss Hf _ IH]; simpl.
  - intros a. simpl. now rewrite app_nil_r.
  - exact (refines_comp f _ rows (List.concat rowss) Hf IH).
Qed.

Lemma statements_refine_table (h : Host) (m : string) (txn : json) (t : Date) :
  refines
    (fun a =>
       fold_left (fun x f => f x)
         (geography_step m txn :: rules_after_geography h txn t) a)
    (Spec.table txn (getHours h t)).
Proof.
  eapply refines_ext; cycle 1.
  - apply refines_run. unfold rules_after_geography.
    repeat first [ apply Forall2_nil | apply Forall2_cons ];
      eauto with refinement.
  - reflexivity.
Qed.

(** An evaluation that returns has run the statements in order, and its
    date is [txnTime]. *)
Lemma evaluate_ok (h : Host) (now : Z) (txn : json) (a : acc) (t : Date) :
  evaluate h now txn = Ok (a, t) ->
  txnTime h now txn = Ok t /\
  exists m,
    a = fold_left (fun x f => f x)
          (geography_step m txn :: rules_after_geography h txn t) acc0.
Proof.
  unfold evaluate, rule_geography, geography_step, rules_after_geography.
  destruct (is_string (opt_prop (prop txn "location") "risk") "high").
  - destruct (template h _) as [c|e]; simpl; [ | discriminate ].
    destruct (txnTime h now txn) as [t'|e]; simpl; [ | discriminate ].
    intros E. injection E as <- <-. split; [ reflexivity | ].
    now exists ("High risk geography: " ++ c)%string.
  - simpl.
    destruct (txnTime h now txn) as [t'|e]; simpl; [ | discriminate ].
    intros E. injection E as <- <-. split; [ reflexivity | ].
    now exists "".
Qed.

(** An evaluation throws nothing but a [TypeError], and returns as soon as
    the two conversions it makes, of the country and of the timestamp,
    return. *)
Lemma evaluate_outcome (h : Host) (now : Z) (txn : json) :
  match evaluate h now txn with
  | Ok (a, t) => txnTime h now txn = Ok t
  | Throw e =>
      (is_string (opt_prop (prop txn "location") "risk") "high" = true /\
       template h (or_else (opt_prop (prop txn "location") "country")
                           (Some (JStr "unknown"))) = Throw e)
      \/ txnTime h now txn = Throw e
  end.
Proof.
  unfold evaluate, rule_geography.
  destruct (is_string (opt_prop (prop txn "location") "risk") "high").
  - destruct (template h _) as [c|e]; simpl; [ | now left ].
    destruct (txnTime h now txn) as [t'|e]; simpl; [ reflexivity | now right ].
  - simpl. destruct (txnTime h now txn) as [t'|e]; simpl; [ reflexivity | now right ].
Qed.

Lemma evaluate_score (h : Host) (now : Z) (txn : json) (a : acc) (t : Date) :
  evaluate h now txn = Ok (a, t) ->
  score a = Spec.score txn (getHours h t).
Proof.
  intros E. destruct (evaluate_ok h now txn a t E) as (_ & m & ->).
  exact (proj1 (statements_refine_table h m txn t acc0)).
Qed.

Lemma evaluate_codes (h : Host) (now : Z) (txn : json) (a : acc) (t : Date) :
  evaluate h now txn = Ok (a, t) ->
  map code (indicators a) = map row_code (Spec.matching txn (getHours h t)).
Proof.
  intros E. destruct (evaluate_ok h now txn a t E) as (_ & m & ->).
  exact (proj2 (statements_refine_table h m txn t acc0)).
Qed.

(** The two amount rows never hold together. *)
Lemma amount_rows_exclusive (txn : json) :
  Spec.high_amount txn && Spec.medium_amount txn = false.
Proof.
  unfold Spec.high_amount, Spec.medium_amount, Spec.holds_num.
  destruct (Spec.numeric txn "amount") as [n|]; [ | reflexivity ].
  rewrite <- medium_amount_agree.
  now destruct (Num.gtb n (Num.of_Z 100000)).
Qed.

(* ------------------------------------------------------------------ *)
(** ** The message handler, case by case *)

Ltac run_handler :=
  cbv [eachMessage eachMessage_body try_catch bind ret throw lift log
       Transaction_create Alert_create with_console
       transactions alerts console].

Section ParsedMessage.

  (** A delivery whose value is the text [raw], which parses as [txn]. *)
  Variables (h : Host) (env : Env) (msg : KafkaMessage) (raw : string)
            (txn : json) (s : Sys).
  Hypothesis Hraw : msg_value msg = Some raw.
  Hypothesis Hparse : JSON_parse h raw = Some txn.

(** What the handler does when the payload carries a truthy identifier and
    is evaluated without exception, by the answers of the store. *)
Lemma eachMessage_identified (id : string) (a : acc) (t : Date) :
  truthy (identifier txn) = true ->
  template h (identifier txn) = Ok id ->
  evaluate h (now env) txn = Ok (a, t) ->
  let doc := transaction_doc txn (identifier txn) a t in
  let alert := alert_doc env txn (identifier txn) a in
  let level := classify (score a) in
  eachMessage h env msg s =
    if Transaction_create_ok env doc then
      if alert_due (score a) then
        if Alert_create_ok env alert then
          (Ok tt,
           {| transactions := transactions s ++ [doc];
              alerts := alerts s ++ [alert];
              console := console s ++
                [Info_processing id; Info_result id (score a) level;
                 Info_saved id; Info_alert_created (alertId alert) level] |})
        else
          (Ok tt,
           {| transactions := transactions s ++ [doc];
              alerts := alerts s;
              console := console s ++
                [Info_processing id; Info_result id (score a) level;
                 Info_saved id; Error_processing StoreError] |})
      else
        (Ok tt,
         {| transactions := transactions s ++ [doc];
            alerts := alerts s;
            console := console s ++
              [Info_processing id; Info_result id (score a) level;
               Info_saved id; Info_clean id (score a)] |})
    else
      (Ok tt,
       {| transactions := transactions s;
          alerts := alerts s;
          console := console s ++
            [Info_processing id; Info_result id (score a) level;
             Error_processing StoreError] |}).
Proof.
  intros Hid Htext Heval doc alert level.
  assert (Hnull : txn <> JNull) by (intros E; rewrite E in Hid; discriminate Hid).
  run_handler. rewrite Hraw, Hparse, Hid, Htext, Heval.
  cbn [negb fst snd]. fold doc; fold level; fold alert.
  destruct txn; try congruence;
    destruct (Transaction_create_ok env doc);
    destruct (alert_due (score a));
    try destruct (Alert_create_ok env alert);
    cbv beta iota; rewrite <- ?app_assoc; reflexivity.
Qed.

(** What the handler does when the payload has no truthy identifier. *)
Lemma eachMessage_unidentified :
  truthy (identifier txn) = false ->
  eachMessage h env msg s =
    (Ok tt, with_console s [match txn with
                            | JNull => Error_processing TypeError
                            | _ => Warn_skipping
                            end]).
Proof.
  intros Hid.
  run_handler. rewrite Hraw, Hparse, Hid.
  destruct txn; reflexivity.
Qed.

(** What the handler does when rendering the identifier, or the evaluation,
    throws: nothing is written. *)
Lemma eachMessage_conversion_throws :
  truthy (identifier txn) = true ->
  (forall e, template h (identifier txn) = Throw e ->
     eachMessage h env msg s = (Ok tt, with_console s [Error_processing e]))
  /\ (forall id e, template h (identifier txn) = Ok id ->
        evaluate h (now env) txn = Throw e ->
        eachMessage h env msg s
        = (Ok tt, with_console s [Info_processing id; Error_processing e])).
Proof.
  intros Hid.
  assert (Hnull : txn <> JNull) by (intros E; rewrite E in Hid; discriminate Hid).
  split.
  - intros e Htext. run_handler. rewrite Hraw, Hparse, Hid, Htext.
    destruct txn; try congruence; reflexivity.
  - intros id e Htext Heval. run_handler. rewrite Hraw, Hparse, Hid, Htext, Heval.
    destruct txn; try congruence; cbn [negb]; now rewrite <- app_assoc.
Qed.

End ParsedMessage.

(** The handler never lets an exception out. *)
Lemma eachMessage_returns (h : Host) (env : Env) (msg : KafkaMessage) (s : Sys) :
  fst (eachMessage h env msg s) = Ok tt.
Proof.
  destruct (msg_value msg) as [raw|] eqn:Hraw.
  - destruct (JSON_parse h raw) as [txn|] eqn:Hparse.
    + destruct (truthy (identifier txn)) eqn:Hid.
      * destruct (eachMessage_conversion_throws h env msg raw txn s Hraw Hparse Hid)
          as (Htext & Heval).
        destruct (template h (identifier txn)) as [id|e] eqn:Eid;
          [ | now rewrite (Htext e eq_refl) ].
        destruct (evaluate h (now env) txn) as [[a t]|e] eqn:Eev;
          [ | now rewrite (Heval id e eq_refl eq_refl) ].
        rewrite (eachMessage_identified h env msg raw txn s Hraw Hparse
                   id a t Hid Eid Eev).
        cbv zeta.
        repeat match goal with
               | |- context [if ?b then _ else _] => destruct b
               end; reflexivity.
      * now rewrite (eachMessage_unidentified h env msg raw txn s Hraw Hparse Hid).
    + run_handler. now rewrite Hraw, Hparse.
  - run_handler. now rewrite Hraw.
Qed.

(* ------------------------------------------------------------------ *)
(** ** The consume loop *)

Lemma consume_returns (h : Host) (feed : list (Env * KafkaMessage)) (s : Sys) :
  fst (consume h feed s) = Ok tt.
Proof.
  revert s. induction feed as [|[env msg] rest IH]; intros s; simpl.
  - reflexivity.
  - unfold bind.
    pose proof (eachMessage_returns h env msg s) as Hm.
    destruct (eachMessage h env msg s) as [[[]|e] s1]; simpl in Hm.
    + apply IH.
    + discriminate Hm.
Qed.

Lemma consume_cons (h : Host) (env : Env) (msg : KafkaMessage)
    (rest : list (Env * KafkaMessage)) (s : Sys) :
  consume h ((env, msg) :: rest) s
  = consume h rest (snd (eachMessage h env msg s)).
Proof.
  simpl. unfold bind.
  pose proof (eachMessage_returns h env msg s) as Hm.
  destruct (eachMessage h env msg s) as [[[]|e] s1]; simpl in Hm.
  - reflexivity.
  - discriminate Hm.
Qed.

Lemma consume_app (h : Host) (feed1 feed2 : list (Env * KafkaMessage)) (s : Sys) :
  consume h (feed1 ++ feed2) s = consume h feed2 (snd (consume h feed1 s)).
Proof.
  revert s. induction feed1 as [|[env msg] rest IH]; intros s.
  - reflexivity.
  - rewrite <- app_comm_cons, !consume_cons. apply IH.
Qed.

(* ------------------------------------------------------------------ *)
(** ** The alerts collection *)

Lemma findOneAndUpdate_missing (id : string) (update : Alert -> Alert)
    (l : list Alert) :
  (forall a, In a l -> alertId a <> id) ->
  findOneAndUpdate id update l = (None, l).
Proof.
  induction l as [|a rest IH]; intros Hno; simpl.
  - reflexivity.
  - destruct (String.eqb_spec (alertId a) id) as [E|_].
    + exfalso. apply (Hno a); [ now left | exact E ].
    + rewrite IH; [ reflexivity | ]. intros b Hb. apply Hno. now right.
Qed.

Lemma findOneAndUpdate_found (id : string) (update : Alert -> Alert)
    (pre : list Alert) (a : Alert) (post : list Alert) :
  (forall b, In b pre -> alertId b <> id) ->
  alertId a = id ->
  findOneAndUpdate id update (pre ++ a :: post)
  = (Some (update a), pre ++ update a :: post).
Proof.
  induction pre as [|b rest IH]; intros Hno Ha; simpl.
  - now rewrite Ha, String.eqb_refl.
  - destruct (String.eqb_spec (alertId b) id) as [E|_].
    + exfalso. apply (Hno b); [ now left | exact E ].
    + rewrite IH; [ reflexivity | | exact Ha ]. intros c Hc. apply Hno. now right.
Qed.

(** The cast of a member fails in one way only. *)
Lemma cast_member_throws (env : Env) (v : value) (e : exn) :
  cast_member env v = Throw e -> e = StoreError.
Proof.
  unfold cast_member.
  destruct v as [[]|]; try discriminate;
    destruct (castString env _); try discriminate; congruence.
Qed.

(** The update document is taken when its three members are, and refused
    when one of them is. *)
Lemma cast_update_cases (env : Env) (body : list (string * json)) :
  (exists act cmt asg,
      cast_member env (lookup "action" body) = Ok act
      /\ cast_member env (lookup "comments" body) = Ok cmt
      /\ cast_member env (lookup "assignedTo" body) = Ok asg
      /\ cast_update env body = Ok (review act cmt asg (reviewNow env)))
  \/ (cast_update env body = Throw StoreError
      /\ exists k, In k ["action"; "comments"; "assignedTo"]
                   /\ cast_member env (lookup k body) = Throw StoreError).
Proof.
  unfold cast_update, and_then.
  destruct (cast_member env (lookup "action" body)) as [act|e] eqn:Ea.
  - destruct (cast_member env (lookup "comments" body)) as [cmt|e] eqn:Ec.
    + destruct (cast_member env (lookup "assignedTo" body)) as [asg|e] eqn:Eg.
      * left. exists act, cmt, asg. repeat split.
      * right. pose proof (cast_member_throws _ _ _ Eg). subst e.
        split; [ reflexivity | ].
        exists "assignedTo". split; [ simpl; auto | exact Eg ].
    + right. pose proof (cast_member_throws _ _ _ Ec). subst e.
      split; [ reflexivity | ].
      exists "comments". split; [ simpl; auto | exact Ec ].
  - right. pose proof (cast_member_throws _ _ _ Ea). subst e.
    split; [ reflexivity | ].
    exists "action". split; [ simpl; auto | exact Ea ].
Qed.

(** The review endpoint, outcome by outcome. *)
Lemma applyReview_run (env : Env) (req : ReviewRequest) (s : Sys) :
  applyReview env req s
  = match cast_update env (body req) with
    | Ok update =>
        if Alert_update_ok env then
          (Ok (Json200 (fst (findOneAndUpdate (params_alertId req) update (alerts s)))),
           {| transactions := transactions s;
              alerts := snd (findOneAndUpdate (params_alertId req) update (alerts s));
              console := console s |})
        else (Ok (Json500 StoreError), with_console s [Error_update_alert StoreError])
    | Throw e => (Ok (Json500 e), with_console s [Error_update_alert e])
    end.
Proof.
  unfold applyReview, try_catch, bind, ret, lift, log, Alert_findOneAndUpdate,
    with_console.
  destruct (cast_update env (body req)) as [update|e]; [ | reflexivity ].
  destruct (Alert_update_ok env); [ | reflexivity ].
  destruct (findOneAndUpdate (params_alertId req) update (alerts s)); reflexivity.
Qed.

(* ------------------------------------------------------------------ *)
(** ** Enumerating the outcomes of the rules *)

Lemma bool_vectors_complete (v : list bool) : In v (bool_vectors (List.length v)).
Proof.
  induction v as [|b v IH]; simpl.
  - now left.
  - apply in_flat_map. exists v. split; [ exact IH | ].
    destruct b; simpl; auto.
Qed.

Lemma sum_weights_pick (rows : list rule_row) (x : number) :
  Spec.sum_weights (filter row_holds rows) x
  = fold_left Num.add (pick (map row_holds rows) (map row_weight rows)) x.
Proof.
  revert x. induction rows as [|r rows IH]; intros x.
  - reflexivity.
  - unfold pick, Spec.sum_weights in *. simpl.
    destruct (row_holds r); simpl; apply IH.
Qed.

(** A property checked on every consistent row outcome and its score holds
    of the row outcome and the score of every evaluation that returns. *)
Lemma outcome_cases (P : list bool -> number -> bool) :
  forallb (fun v => implb (exclusive v) (P v (flag_score v))) (bool_vectors 12) = true ->
  forall h now txn a t,
    evaluate h now txn = Ok (a, t) ->
    P (map row_holds (Spec.table txn (getHours h t))) (score a) = true.
Proof.
  intros Hall h now txn a t E.
  rewrite (evaluate_score h now txn a t E). unfold Spec.score, Spec.matching.
  rewrite sum_weights_pick.
  set (hour := getHours h t).
  set (v := map row_holds (Spec.table txn hour)).
  rewrite forallb_forall in Hall.
  specialize (Hall v (bool_vectors_complete v)).
  assert (Hex : exclusive v = true).
  { unfold exclusive. change (nth 3 v false) with (Spec.high_amount txn).
    change (nth 4 v false) with (Spec.medium_amount txn).
    now rewrite amount_rows_exclusive. }
  rewrite Hex in Hall. exact Hall.
Qed.

Lemma score_cases (P : number -> bool) :
  forallb (fun v => implb (exclusive v) (P (flag_score v))) (bool_vectors 12) = true ->
  forall h now txn a t, evaluate h now txn = Ok (a, t) -> P (score a) = true.
Proof. intros Hall. exact (outcome_cases (fun _ => P) Hall). Qed.

Lemma matching_row (c : string) (rows : list rule_row) :
  In c (map row_code (filter row_holds rows)) ->
  exists r, In r rows /\ row_holds r = true /\ row_code r = c.
Proof.
  intros Hin. apply in_map_iff in Hin. destruct Hin as (r & Hc & Hr).
  apply filter_In in Hr. destruct Hr as (Hr & Hh). eauto.
Qed.

Ltac absurd_row :=
  match goal with
  | H : _ \/ _ |- _ => destruct H as [H|H]; [ absurd_row | absurd_row ]
  | H : False |- _ => contradiction
  | H : _ = ?r, Hc : row_code ?r = _, Hh : row_holds ?r = true |- _ =>
      subst r; simpl in Hc, Hh; first [ discriminate Hc | congruence ]
  end.

(* ------------------------------------------------------------------ *)
(** ** Rounding *)

(** The binary64 weights of the table are the roundings of its decimal
    weights. *)
Lemma table_weights_are_rounded_decimals (txn : json) (hour : option Z) :
  map row_weight (Spec.table txn hour) = map Num.of_Q Spec.decimal_weights.
Proof. vm_compute. reflexivity. Qed.

Lemma level_eqb_eq (a b : riskLevel) : level_eqb a b = true -> a = b.
Proof. destruct a, b; simpl; congruence. Qed.

(** Rounding never moves a score across a threshold: the level and the
    alert decision computed from the binary64 score are those of the exact
    sum of the decimal weights. *)
Lemma rounding_keeps_decisions (h : Host) (now : Z) (txn : json) (a : acc) (t : Date) :
  evaluate h now txn = Ok (a, t) ->
  classify (score a) = Spec.exact_level (Spec.exact_score txn (getHours h t))
  /\ alert_due (score a) = Spec.exact_alert (Spec.exact_score txn (getHours h t)).
Proof.
  intros E.
  pose proof (outcome_cases
                (fun v x =>
                   level_eqb (classify x) (Spec.exact_level (Spec.exact_sum v)) &&
                   Bool.eqb (alert_due x) (Spec.exact_alert (Spec.exact_sum v)))
                ltac:(vm_compute; reflexivity) h now txn a t E) as H.
  cbv beta in H. apply andb_true_iff in H. destruct H as (Hl & Ha).
  split; [ now apply level_eqb_eq | now apply Bool.eqb_prop ].
Qed.

(* ------------------------------------------------------------------ *)
(** ** C1: the score is the sum of the matching weights *)

(** C1 (amended).  For every host, clock reading and payload, the
    evaluation returns unless converting the country or the timestamp to a
    string throws, and when it returns, the score is the sum of the weights
    of the rows of the section 4.1 table whose conditions the payload
    satisfies, accumulated in table order from 0 in binary64 arithmetic, and
    the indicator codes are the codes of exactly those rows in that order;
    that sum can differ from the exact decimal sum in its last bits, but it
    always gives the risk level and the alert decision of the exact sum; the
    high-amount and medium-amount rows never hold together, and an amount of
    75000 adds exactly 0.10.  The payload [{location: {risk: "high"},
    cvvMatch: false, amount: 150000}] is CRITICAL at any time, and its score
    is 1.00 whenever the local hour of the processing time is between 6 and
    22. *)
Theorem evaluate_is_sum_of_matching_weights (h : Host) (now : Z) (txn : json) :
  (forall a t, evaluate h now txn = Ok (a, t) ->
     score a = Spec.sum_weights (Spec.matching txn (getHours h t)) (Num.of_Z 0)
     /\ map code (indicators a) = map row_code (Spec.matching txn (getHours h t))
     /\ classify (score a) = Spec.exact_level (Spec.exact_score txn (getHours h t))
     /\ alert_due (score a) = Spec.exact_alert (Spec.exact_score txn (getHours h t)))
  /\ (forall e, evaluate h now txn = Throw e ->
        (is_string (opt_prop (prop txn "location") "risk") "high" = true /\
         template h (or_else (opt_prop (prop txn "location") "country")
                             (Some (JStr "unknown"))) = Throw e)
        \/ txnTime h now txn = Throw e)
  /\ Spec.high_amount txn && Spec.medium_amount txn = false
  /\ (prop txn "amount" = Some (JNum (Num.of_Z 75000)) ->
      forall a, score (rule_amount h txn a) = Num.add (score a) (Num.dec 10 100))
  /\ (exists a, evaluate h now example_txn = Ok (a, Some now)
        /\ classify (score a) = CRITICAL
        /\ (night_hour (getHours h (Some now)) = false -> score a = Num.dec 100 100)).
Proof.
  split.
  { intros a t E. split; [ exact (evaluate_score h now txn a t E) | ].
    split; [ exact (evaluate_codes h now txn a t E) | ].
    exact (rounding_keeps_decisions h now txn a t E). }
  split.
  { intros e E. pose proof (evaluate_outcome h now txn) as H.
    rewrite E in H. exact H. }
  split; [ apply amount_rows_exclusive | ].
  split.
  { intros H a. unfold rule_amount, number_above. rewrite H. reflexivity. }
  unfold evaluate, rule_time. cbn [rule_geography txnTime and_then].
  simpl txnTime. cbv beta iota.
  eexists. split; [ reflexivity | ].
  destruct (night_hour (getHours h (Some now))).
  - split; [ vm_compute; reflexivity | discriminate ].
  - split; [ vm_compute; reflexivity | intros _; vm_compute; reflexivity ].
Qed.

(** At noon UTC the example payload scores exactly 1.00. *)
Lemma evaluate_is_sum_of_matching_weights_witness :
  exists a, evaluate (table_host [] []) noon example_txn = Ok (a, Some noon)
    /\ classify (score a) = CRITICAL
    /\ score a = Num.dec 100 100.
Proof.
  destruct (evaluate_is_sum_of_matching_weights (table_host [] []) noon example_txn)
    as (_ & _ & _ & _ & a & E & Hc & Hs).
  exists a. split; [ exact E | ]. split; [ exact Hc | ].
  apply Hs. reflexivity.
Defined.

(** C1 as stated fails twice.  Processed at 02:00 local time, the example
    payload also triggers the time-of-day rule and scores 1.08, not 1.00.
    And the score is a binary64 sum, not the exact one: a failed CVV and a
    failed AVS check score 0.44999999999999996, which is not the number
    0.45. *)
Lemma score_differs_from_stated_sums :
  (exists a, evaluate (table_host [] []) two_am example_txn = Ok (a, Some two_am)
     /\ score a = Num.dec 108 100 /\ score a <> Num.dec 100 100)
  /\ (exists a, evaluate (table_host [] []) noon failed_checks_txn = Ok (a, Some noon)
        /\ Spec.exact_score failed_checks_txn (Some 12%Z) == 45 # 100
        /\ score a = Num.add (Num.dec 30 100) (Num.dec 15 100)
        /\ score a <> Num.of_Q (45 # 100)).
Proof.
  split; eexists; (split; [ vm_compute; reflexivity | ]);
    repeat split; try (vm_compute; reflexivity); vm_compute; discriminate.
Qed.

(* ------------------------------------------------------------------ *)
(** ** C2: the risk classifier *)

(** C2.  For every score, [classify] answers CRITICAL exactly when the score
    is at least 0.70, HIGH exactly when it is below 0.70 and at least 0.50,
    MEDIUM exactly when it is below 0.50 and at least 0.30, and LOW exactly
    when it is below 0.30; 0.70 is CRITICAL, 0.6999 and 0.50 are HIGH, 0.4999
    and 0.30 are MEDIUM, 0.2999 is LOW. *)
Theorem classify_thresholds (s : number) :
  (classify s = CRITICAL <-> Num.geb s (Num.dec 70 100) = true)
  /\ (classify s = HIGH <->
      Num.geb s (Num.dec 70 100) = false /\ Num.geb s (Num.dec 50 100) = true)
  /\ (classify s = MEDIUM <->
      Num.geb s (Num.dec 70 100) = false /\ Num.geb s (Num.dec 50 100) = false /\
      Num.geb s (Num.dec 30 100) = true)
  /\ (classify s = LOW <->
      Num.geb s (Num.dec 70 100) = false /\ Num.geb s (Num.dec 50 100) = false /\
      Num.geb s (Num.dec 30 100) = false)
  /\ classify (Num.dec 70 100) = CRITICAL
  /\ classify (Num.dec 6999 10000) = HIGH
  /\ classify (Num.dec 50 100) = HIGH
  /\ classify (Num.dec 4999 10000) = MEDIUM
  /\ classify (Num.dec 30 100) = MEDIUM
  /\ classify (Num.dec 2999 10000) = LOW.
Proof.
  assert (E7 : Num.dec 70 100 = Num.dec 7 10) by (vm_compute; reflexivity).
  assert (E5 : Num.dec 50 100 = Num.dec 5 10) by (vm_compute; reflexivity).
  assert (E3 : Num.dec 30 100 = Num.dec 3 10) by (vm_compute; reflexivity).
  rewrite E7, E5, E3.
  repeat match goal with |- _ /\ _ => split end;
    try (vm_compute; reflexivity);
    unfold classify;
    destruct (Num.geb s (Num.dec 7 10)), (Num.geb s (Num.dec 5 10)),
             (Num.geb s (Num.dec 3 10));
    split; intros H; try discriminate H; auto;
    try (destruct H as (H1 & H2); try destruct H2 as (H2 & H3); discriminate).
Qed.

(* ------------------------------------------------------------------ *)
(** ** C3: when the transaction is stored, and the alert at 0.40 *)

(** C3 (amended).  For every consumed message that parses to a payload with
    a truthy identifier: the StoredTransaction is appended, whatever the
    score, exactly when the identifier can be rendered, the evaluation
    returns and the store accepts the document; it then holds the
    identifier, the five members copied from the payload, the score, its
    risk level, the indicator messages and the effective timestamp.  In
    every other case (an exception while rendering or evaluating, a refused
    write, and so an Invalid Date timestamp on a store that validates it)
    neither a transaction nor an alert is written.  When the transaction is
    stored, the alert, with status PENDING and no review field, is appended
    exactly when the score is at least 0.40 and the store accepts it; below
    0.40 the alerts are left as they were.  The test answers yes at 0.40 and
    no at 0.3999. *)
Theorem transaction_stored_alert_iff_threshold
    (h : Host) (env : Env) (msg : KafkaMessage) (raw : string) (txn : json)
    (s : Sys) :
  msg_value msg = Some raw ->
  JSON_parse h raw = Some txn ->
  truthy (identifier txn) = true ->
  let s' := snd (eachMessage h env msg s) in
  (forall e,
     template h (identifier txn) = Throw e \/ evaluate h (now env) txn = Throw e ->
     transactions s' = transactions s /\ alerts s' = alerts s)
  /\ (forall id a t,
        template h (identifier txn) = Ok id ->
        evaluate h (now env) txn = Ok (a, t) ->
        let doc :=
          {| tx_transactionId := or_else (prop txn "id") (prop txn "transactionId");
             tx_accountId := prop txn "accountId";
             tx_amount := prop txn "amount";
             tx_merchant := prop txn "merchant";
             tx_category := prop txn "category";
             tx_location := prop txn "location";
             tx_mlScore := score a;
             tx_riskLevel := classify (score a);
             tx_fraudIndicators := map message (indicators a);
             tx_timestamp := t |} in
        let alert :=
          {| alertId := ("ALERT" ++ show_Z (alertNow env) ++ random5 env)%string;
             al_transactionId := or_else (prop txn "id") (prop txn "transactionId");
             transaction := txn;
             al_mlScore := score a;
             al_riskLevel := classify (score a);
             reasons := indicators a;
             status := Some (JStr "PENDING");
             assignedTo := None;
             reviewedAt := None;
             action := None;
             comments := None;
             createdAt := createdNow env |} in
        (Transaction_create_ok env doc = false ->
           transactions s' = transactions s /\ alerts s' = alerts s)
        /\ (validates_timestamp env -> t = None ->
            transactions s' = transactions s /\ alerts s' = alerts s)
        /\ (Transaction_create_ok env doc = true ->
            transactions s' = transactions s ++ [doc]
            /\ (Num.geb (score a) (Num.dec 40 100) = false -> alerts s' = alerts s)
            /\ (Num.geb (score a) (Num.dec 40 100) = true ->
                Alert_create_ok env alert = true ->
                alerts s' = alerts s ++ [alert])
            /\ (Alert_create_ok env alert = false -> alerts s' = alerts s)
            /\ ((exists al, alerts s' = alerts s ++ [al])
                <-> Num.geb (score a) (Num.dec 40 100) = true
                    /\ Alert_create_ok env alert = true)))
  /\ alert_due (Num.dec 40 100) = true
  /\ alert_due (Num.dec 3999 10000) = false.
Proof.
  intros Hraw Hparse Hid s'.
  assert (E4 : Num.dec 40 100 = alertThreshold) by (vm_compute; reflexivity).
  destruct (eachMessage_conversion_throws h env msg raw txn s Hraw Hparse Hid)
    as (Htext & Heval).
  split; [ | split; [ | split; vm_compute; reflexivity ] ].
  - intros e [Ht | He]; unfold s'.
    + rewrite (Htext e Ht). split; reflexivity.
    + destruct (template h (identifier txn)) as [id|e'] eqn:Eid.
      * rewrite (Heval id e eq_refl He). split; reflexivity.
      * rewrite (Htext e' eq_refl). split; reflexivity.
  - intros id a t Eid Eev doc alert.
    rewrite E4. fold (alert_due (score a)).
    pose proof (eachMessage_identified h env msg raw txn s Hraw Hparse
                  id a t Hid Eid Eev) as E.
    cbv zeta in E.
    change (transaction_doc txn (identifier txn) a t) with doc in E.
    change (alert_doc env txn (identifier txn) a) with alert in E.
    assert (Hgrow : forall (l : list Alert) al, l <> l ++ [al]).
    { intros l al Hl. apply (f_equal (@List.length Alert)) in Hl.
      rewrite length_app in Hl. simpl in Hl. lia. }
    assert (Hrefused : Transaction_create_ok env doc = false ->
                       transactions s' = transactions s /\ alerts s' = alerts s).
    { intros Hno. unfold s'. rewrite E, Hno. split; reflexivity. }
    split; [ exact Hrefused | ]. split.
    + intros Hval Ht. apply Hrefused.
      destruct (Transaction_create_ok env doc) eqn:Hok; [ | reflexivity ].
      apply Hval in Hok. unfold valid_timestamp, doc in Hok. simpl in Hok.
      rewrite Ht in Hok. discriminate Hok.
    + intros Hok. unfold s'. rewrite E, Hok. clear E.
      destruct (alert_due (score a)), (Alert_create_ok env alert); simpl;
        (split; [ reflexivity | ]);
        (split; [ try reflexivity; try discriminate | ]);
        (split; [ try reflexivity; try discriminate; auto | ]);
        (split; [ try reflexivity; try discriminate; auto | ]);
        split;
        try (intros (al & Hal); exfalso; exact (Hgrow _ _ Hal));
        try (intros (H1 & H2); discriminate);
        try (intros _; exists alert; reflexivity);
        try (intros _; split; reflexivity).
Qed.

Lemma risky_txn_evaluates :
  evaluate example_host noon risky_txn
  = Ok (evaluated example_host noon risky_txn, Some noon).
Proof. vm_compute. reflexivity. Qed.

(** The risky message at noon on an empty store: one transaction and one
    PENDING alert. *)
Lemma transaction_stored_alert_iff_threshold_witness :
  let a := evaluated example_host noon risky_txn in
  transactions (snd (eachMessage example_host (env_at noon) (msg_of risky_raw) empty_sys))
  = [transaction_doc risky_txn (identifier risky_txn) a (Some noon)]
  /\ alerts (snd (eachMessage example_host (env_at noon) (msg_of risky_raw) empty_sys))
     = [alert_doc (env_at noon) risky_txn (identifier risky_txn) a].
Proof.
  destruct (transaction_stored_alert_iff_threshold
              example_host (env_at noon) (msg_of risky_raw) risky_raw risky_txn
              empty_sys eq_refl eq_refl eq_refl)
    as (_ & Hstored & _).
  destruct (Hstored "t1" (evaluated example_host noon risky_txn) (Some noon)
              eq_refl risky_txn_evaluates) as (_ & _ & Hok).
  destruct (Hok eq_refl) as (Htx & _ & Hal & _).
  split; [ exact Htx | apply Hal; vm_compute; reflexivity ].
Defined.

(** C3 as stated fails: two messages that carry an identifier and are not
    stored.  The first has a [timestamp] that cannot be converted, so the
    evaluation throws, and nothing is written even by a store that accepts
    every write; the second has a [timestamp] that does not parse, and the
    store refuses the document with the Invalid Date.  Neither is replaced
    by anything: both collections stay empty. *)
Lemma identified_message_is_not_always_stored :
  truthy (identifier unconvertible_txn) = true
  /\ JSON_parse example_host unconvertible_raw = Some unconvertible_txn
  /\ eachMessage example_host (env_lenient noon) (msg_of unconvertible_raw) empty_sys
     = (Ok tt, {| transactions := []; alerts := [];
                  console := [Info_processing "t6"; Error_processing TypeError] |})
  /\ truthy (identifier undated_txn) = true
  /\ JSON_parse example_host undated_raw = Some undated_txn
  /\ eachMessage example_host (env_at noon) (msg_of undated_raw) empty_sys
     = (Ok tt, {| transactions := []; alerts := [];
                  console := [Info_processing "t3";
                              Info_result "t3" (Num.of_Z 0) LOW;
                              Error_processing StoreError] |}).
Proof. repeat split; vm_compute; reflexivity. Qed.

(* ------------------------------------------------------------------ *)
(** ** C4: a payload without identifier is discarded *)

(** C4.  For every consumed message whose parsed payload has neither [id]
    nor [transactionId], the handler returns normally, so the message counts
    as consumed, stores no transaction and no alert, and only writes one
    diagnostic to the console. *)
Theorem unidentified_message_is_discarded
    (h : Host) (env : Env) (msg : KafkaMessage) (raw : string) (txn : json)
    (s : Sys) :
  msg_value msg = Some raw ->
  JSON_parse h raw = Some txn ->
  prop txn "id" = None ->
  prop txn "transactionId" = None ->
  let r := eachMessage h env msg s in
  fst r = Ok tt
  /\ transactions (snd r) = transactions s
  /\ alerts (snd r) = alerts s
  /\ (console (snd r) = console s ++ [Warn_skipping] \/
      console (snd r) = console s ++ [Error_processing TypeError]).
Proof.
  intros Hraw Hparse Hid Htid r.
  assert (Hno : truthy (identifier txn) = false)
    by (unfold identifier, or_else; rewrite Hid, Htid; reflexivity).
  unfold r. rewrite (eachMessage_unidentified h env msg raw txn s Hraw Hparse Hno).
  simpl. repeat split.
  destruct txn; auto.
Qed.

Lemma unidentified_message_is_discarded_witness :
  let r := eachMessage example_host (env_at noon) (msg_of anonymous_raw) empty_sys in
  fst r = Ok tt
  /\ transactions (snd r) = []
  /\ alerts (snd r) = []
  /\ (console (snd r) = [] ++ [Warn_skipping] \/
      console (snd r) = [] ++ [Error_processing TypeError]).
Proof.
  exact (unidentified_message_is_discarded
           example_host (env_at noon) (msg_of anonymous_raw) anonymous_raw
           anonymous_txn empty_sys eq_refl eq_refl eq_refl eq_refl).
Defined.

(* ------------------------------------------------------------------ *)
(** ** C5: the review endpoint *)

(** C5 (amended).  When the store answers and takes the update: if no stored
    alert has the requested [alertId], the endpoint answers with the
    not-found outcome ([data] is [null]) and leaves the whole state as it
    was; if one has, the first such alert gets [reviewedAt] set to the
    current time and, of [status], [action], [comments] and [assignedTo],
    those whose member is present in the body ([action] for both [status]
    and [action]), while a member missing from the body leaves the stored
    value as it was; every other field and every other document is
    unchanged, and the updated record is returned.  A string member is
    written as it is and a missing one is always taken.  When the store does
    not answer, or refuses the cast of a member, the answer is the error
    response and nothing is written. *)
Theorem applyReview_updates_or_reports_missing (env : Env) (req : ReviewRequest)
    (s : Sys) :
  let r := applyReview env req s in
  let id := params_alertId req in
  let member := fun k => lookup k (body req) in
  (forall k, member k = None -> cast_member env (member k) = Ok None)
  /\ (forall k text, member k = Some (JStr text) ->
        cast_member env (member k) = Ok (Some (JStr text)))
  /\ (forall act cmt asg,
        Alert_update_ok env = true ->
        cast_member env (member "action") = Ok act ->
        cast_member env (member "comments") = Ok cmt ->
        cast_member env (member "assignedTo") = Ok asg ->
        let reviewed := fun a : Alert =>
          {| alertId := alertId a;
             al_transactionId := al_transactionId a;
             transaction := transaction a;
             al_mlScore := al_mlScore a;
             al_riskLevel := al_riskLevel a;
             reasons := reasons a;
             status := match act with Some _ => act | None => status a end;
             assignedTo := match asg with Some _ => asg | None => assignedTo a end;
             reviewedAt := Some (reviewNow env);
             action := match act with Some _ => act | None => action a end;
             comments := match cmt with Some _ => cmt | None => comments a end;
             createdAt := createdAt a |} in
        ((forall a, In a (alerts s) -> alertId a <> id) ->
           fst r = Ok (Json200 None) /\ snd r = s)
        /\ (forall pre a post,
              alerts s = pre ++ a :: post ->
              (forall b, In b pre -> alertId b <> id) ->
              alertId a = id ->
              fst r = Ok (Json200 (Some (reviewed a)))
              /\ alerts (snd r) = pre ++ reviewed a :: post
              /\ transactions (snd r) = transactions s
              /\ console (snd r) = console s))
  /\ ((Alert_update_ok env = false
       \/ exists k e, In k ["action"; "comments"; "assignedTo"]
                      /\ cast_member env (member k) = Throw e) ->
      fst r = Ok (Json500 StoreError)
      /\ alerts (snd r) = alerts s
      /\ transactions (snd r) = transactions s
      /\ console (snd r) = console s ++ [Error_update_alert StoreError]).
Proof.
  intros r id member.
  split; [ | split; [ | split ] ].
  - intros k Hk. rewrite Hk. reflexivity.
  - intros k text Hk. rewrite Hk. reflexivity.
  - intros act cmt asg Hup Ha Hc Hg reviewed.
    assert (Hrun : r = (Ok (Json200 (fst (findOneAndUpdate id reviewed (alerts s)))),
                        {| transactions := transactions s;
                           alerts := snd (findOneAndUpdate id reviewed (alerts s));
                           console := console s |})).
    { unfold r. rewrite applyReview_run. unfold cast_update, and_then.
      fold (member "action") (member "comments") (member "assignedTo").
      rewrite Ha, Hc, Hg, Hup. reflexivity. }
    rewrite Hrun. split.
    + intros Hno. rewrite (findOneAndUpdate_missing id reviewed _ Hno).
      destruct s; split; reflexivity.
    + intros pre a post Hs Hno Hid.
      rewrite Hs, (findOneAndUpdate_found id reviewed pre a post Hno Hid).
      repeat split.
  - intros Hfail. unfold r. rewrite applyReview_run.
    destruct (cast_update_cases env (body req))
      as [(act & cmt & asg & Ha & Hc & Hg & Hu) | (Hu & _)]; rewrite Hu.
    + destruct Hfail as [Hup | (k & e & Hk & He)].
      * rewrite Hup. repeat split.
      * exfalso. fold (member "action") (member "comments") (member "assignedTo")
          in Ha, Hc, Hg.
        simpl in Hk. destruct Hk as [<-|[<-|[<-|[]]]]; congruence.
    + repeat split.
Qed.

Lemma applyReview_updates_or_reports_missing_witness :
  (fst (applyReview (env_at two_am) (approve "ALERT0") one_alert_sys)
   = Ok (Json200 None)
   /\ snd (applyReview (env_at two_am) (approve "ALERT0") one_alert_sys)
      = one_alert_sys)
  /\ alerts (snd (applyReview (env_at two_am)
                    (approve "ALERT1767268800000k3x9q") one_alert_sys))
     = [ review (Some (JStr "APPROVED")) (Some (JStr "verified with customer"))
           (Some (JStr "analyst1")) two_am pending_alert ]
  /\ fst (applyReview (env_at two_am)
            (malformed_review "ALERT1767268800000k3x9q") one_alert_sys)
     = Ok (Json500 StoreError).
Proof.
  destruct (applyReview_updates_or_reports_missing
              (env_at two_am) (approve "ALERT0") one_alert_sys)
    as (_ & _ & Hmissing & _).
  destruct (applyReview_updates_or_reports_missing
              (env_at two_am) (approve "ALERT1767268800000k3x9q") one_alert_sys)
    as (_ & _ & Hfound & _).
  destruct (applyReview_updates_or_reports_missing
              (env_at two_am) (malformed_review "ALERT1767268800000k3x9q")
              one_alert_sys)
    as (_ & _ & _ & Hrefused).
  split; [ | split ].
  - apply (Hmissing _ _ _ eq_refl eq_refl eq_refl eq_refl).
    intros a [<-|[]]. vm_compute. discriminate.
  - destruct (Hfound _ _ _ eq_refl eq_refl eq_refl eq_refl) as (_ & Hthere).
    destruct (Hthere [] pending_alert [] eq_refl) as (_ & Hal & _).
    + intros b [].
    + vm_compute. reflexivity.
    + exact Hal.
  - apply Hrefused. right. exists "action", StoreError.
    split; [ simpl; auto | reflexivity ].
Defined.

(** C5 as stated fails: a review whose body carries only [comments], on the
    pending alert.  The alert is found and returned, but of the five fields
    only [comments] and [reviewedAt] are written: [status] stays PENDING and
    is not the (absent) action, and [action] and [assignedTo] stay unset. *)
Lemma review_without_action_keeps_status :
  lookup "action" (body (remark "ALERT1767268800000k3x9q")) = None
  /\ alertId pending_alert = "ALERT1767268800000k3x9q"
  /\ exists updated,
       applyReview (env_at two_am) (remark "ALERT1767268800000k3x9q") one_alert_sys
       = (Ok (Json200 (Some updated)),
          {| transactions := []; alerts := [updated]; console := [] |})
       /\ status updated = Some (JStr "PENDING")
       /\ action updated = None
       /\ status updated <> action updated
       /\ assignedTo updated = None
       /\ comments updated = Some (JStr "call back")
       /\ reviewedAt updated = Some two_am.
Proof.
  split; [ reflexivity | ]. split; [ vm_compute; reflexivity | ].
  eexists. split; [ vm_compute; reflexivity | ].
  simpl. repeat split. discriminate.
Qed.

(* ------------------------------------------------------------------ *)
(** ** C6: the effective timestamp *)

(** C6 (amended).  The effective timestamp, the one the time-of-day rule
    reads and the one handed to the store on the StoredTransaction, is
    [new Date(timestamp)] whenever the payload's [timestamp] is truthy: the
    parsed instant when a string parses, the Invalid Date when it does not
    (and an exception when the field is an object that cannot be converted,
    which ends the evaluation); it is the processing time only when the
    field is absent or falsy.  With the Invalid Date the time-of-day rule
    does not fire, and a store that validates the [Date] type of the schema
    refuses the document, so that neither a transaction nor an alert is
    written; a transaction that is written carries the effective
    timestamp. *)
Theorem effective_timestamp_follows_truthiness (h : Host) (env : Env) (txn : json) :
  (forall v, prop txn "timestamp" = Some v -> truthy (Some v) = true ->
     txnTime h (now env) txn = newDate h v)
  /\ (truthy (prop txn "timestamp") = false ->
      txnTime h (now env) txn = Ok (Some (now env)))
  /\ (forall text t, prop txn "timestamp" = Some (JStr text) -> text <> "" ->
        Date_parse h text = Some t -> txnTime h (now env) txn = Ok (Some t))
  /\ (forall text, prop txn "timestamp" = Some (JStr text) -> text <> "" ->
        Date_parse h text = None -> txnTime h (now env) txn = Ok None)
  /\ (forall a, rule_time h None a = a)
  /\ (forall a t, evaluate h (now env) txn = Ok (a, t) ->
        txnTime h (now env) txn = Ok t
        /\ (forall id, tx_timestamp (transaction_doc txn id a t) = t)
        /\ exists a0, a = rule_time h t a0)
  /\ (forall msg raw s,
        msg_value msg = Some raw ->
        JSON_parse h raw = Some txn ->
        let s' := snd (eachMessage h env msg s) in
        (validates_timestamp env ->
         txnTime h (now env) txn = Ok None ->
         transactions s' = transactions s /\ alerts s' = alerts s)
        /\ (forall doc, transactions s' = transactions s ++ [doc] ->
              txnTime h (now env) txn = Ok (tx_timestamp doc))).
Proof.
  assert (Hstr : forall text, text <> "" -> truthy (Some (JStr text)) = true).
  { intros text Hne. unfold truthy.
    destruct (String.eqb_spec text ""); [ contradiction | reflexivity ]. }
  split; [ | split; [ | split; [ | split; [ | split; [ | split ] ] ] ] ].
  - intros v Hv Ht. unfold txnTime. now rewrite Hv, Ht.
  - intros Hf. unfold txnTime.
    destruct (prop txn "timestamp") as [v|]; [ now rewrite Hf | reflexivity ].
  - intros text t Hv Hne Hp. unfold txnTime, newDate.
    rewrite Hv, (Hstr text Hne). now rewrite Hp.
  - intros text Hv Hne Hp. unfold txnTime, newDate.
    rewrite Hv, (Hstr text Hne). now rewrite Hp.
  - reflexivity.
  - intros a t H. split; [ | split ].
    + exact (proj1 (evaluate_ok h (now env) txn a t H)).
    + reflexivity.
    + revert H. unfold evaluate.
      destruct (rule_geography h txn acc0) as [a1|e]; simpl; [ | discriminate ].
      destruct (txnTime h (now env) txn) as [t'|e]; simpl; [ | discriminate ].
      intros E. injection E as <- <-. eauto.
  - intros msg raw s Hraw Hparse s'.
    assert (Hgrow : forall (l : list StoredTransaction) d, l <> l ++ [d]).
    { intros l d Hl. apply (f_equal (@List.length StoredTransaction)) in Hl.
      rewrite length_app in Hl. simpl in Hl. lia. }
    assert (Hkept : transactions s' = transactions s /\ alerts s' = alerts s ->
              (validates_timestamp env -> txnTime h (now env) txn = Ok None ->
               transactions s' = transactions s /\ alerts s' = alerts s)
              /\ (forall doc, transactions s' = transactions s ++ [doc] ->
                    txnTime h (now env) txn = Ok (tx_timestamp doc))).
    { intros (Ht & Ha). split; [ intros _ _; split; assumption | ].
      intros doc Hd. rewrite Ht in Hd. exfalso. exact (Hgrow _ _ Hd). }
    destruct (truthy (identifier txn)) eqn:Hid.
    + destruct (eachMessage_conversion_throws h env msg raw txn s Hraw Hparse Hid)
        as (Htext & Heval).
      destruct (template h (identifier txn)) as [id|e] eqn:Eid;
        [ | apply Hkept; unfold s'; rewrite (Htext e eq_refl); split; reflexivity ].
      destruct (evaluate h (now env) txn) as [[a t]|e] eqn:Eev;
        [ | apply Hkept; unfold s'; rewrite (Heval id e eq_refl eq_refl);
            split; reflexivity ].
      pose proof (proj1 (evaluate_ok h (now env) txn a t Eev)) as Htime.
      pose proof (eachMessage_identified h env msg raw txn s Hraw Hparse
                    id a t Hid Eid Eev) as E.
      cbv zeta in E.
      destruct (Transaction_create_ok env (transaction_doc txn (identifier txn) a t))
        eqn:Hok;
        [ | apply Hkept; unfold s'; rewrite E; split; reflexivity ].
      assert (Htx : transactions s'
                    = transactions s ++ [transaction_doc txn (identifier txn) a t]).
      { unfold s'. rewrite E.
        destruct (alert_due (score a)); [ destruct (Alert_create_ok env _) | ];
          reflexivity. }
      split.
      * intros Hval Hnone. apply Hval in Hok.
        unfold valid_timestamp in Hok. simpl in Hok.
        rewrite Htime in Hnone. injection Hnone as ->. discriminate Hok.
      * intros doc Hd. rewrite Htx in Hd.
        apply app_inv_head in Hd. injection Hd as <-. exact Htime.
    + apply Hkept. unfold s'.
      rewrite (eachMessage_unidentified h env msg raw txn s Hraw Hparse Hid).
      split; reflexivity.
Qed.

Lemma effective_timestamp_follows_truthiness_witness :
  txnTime example_host (now (env_at noon)) undated_txn = Ok None
  /\ txnTime example_host (now (env_at noon)) risky_txn = Ok (Some noon)
  /\ transactions (snd (eachMessage example_host (env_at noon)
                          (msg_of undated_raw) empty_sys)) = [].
Proof.
  destruct (effective_timestamp_follows_truthiness example_host (env_at noon) undated_txn)
    as (_ & _ & _ & Hbad & _ & _ & Hstore).
  destruct (effective_timestamp_follows_truthiness example_host (env_at noon) risky_txn)
    as (_ & Habsent & _).
  assert (Hnone : txnTime example_host (now (env_at noon)) undated_txn = Ok None)
    by (apply (Hbad "not-a-date"); [ reflexivity | discriminate | reflexivity ]).
  split; [ exact Hnone | ]. split.
  - apply Habsent. reflexivity.
  - destruct (Hstore (msg_of undated_raw) undated_raw empty_sys eq_refl eq_refl)
      as (Hrefused & _).
    apply Hrefused; [ intros doc Hok; exact Hok | exact Hnone ].
Defined.

(** A timestamp that cannot be converted to a primitive: the handler
    catches the [TypeError] and stores nothing. *)
Lemma unconvertible_timestamp_aborts :
  txnTime example_host noon unconvertible_txn = Throw TypeError /\
  eachMessage example_host (env_at noon) (msg_of unconvertible_raw) empty_sys
  = (Ok tt, {| transactions := []; alerts := [];
               console := [Info_processing "t6"; Error_processing TypeError] |}).
Proof. split; vm_compute; reflexivity. Qed.

(** C6 as stated fails: a [timestamp] that is present but does not parse is
    not replaced by the processing time.  The effective timestamp is the
    Invalid Date, the document handed to the store carries it, and the store
    refuses that document: the message is logged as a processing error and
    leaves no transaction. *)
Lemma unparseable_timestamp_is_not_defaulted :
  prop undated_txn "timestamp" = Some (JStr "not-a-date") /\
  Date_parse example_host "not-a-date" = None /\
  txnTime example_host noon undated_txn = Ok None /\
  txnTime example_host noon undated_txn <> Ok (Some noon) /\
  (exists a, evaluate example_host noon undated_txn = Ok (a, None)
             /\ valid_timestamp
                  (transaction_doc undated_txn (identifier undated_txn) a None)
                = false) /\
  eachMessage example_host (env_at noon) (msg_of undated_raw) empty_sys
  = (Ok tt, {| transactions := []; alerts := [];
               console := [Info_processing "t3";
                           Info_result "t3" (Num.of_Z 0) LOW;
                           Error_processing StoreError] |}).
Proof.
  split; [ reflexivity | ]. split; [ reflexivity | ].
  split; [ reflexivity | ]. split; [ vm_compute; discriminate | ].
  split; [ eexists; split; [ vm_compute; reflexivity | reflexivity ] | ].
  vm_compute. reflexivity.
Qed.

(* ------------------------------------------------------------------ *)
(** ** C7: the score is bounded *)

Lemma saturated_txn_evaluates :
  evaluate example_host two_am saturated_txn
  = Ok (evaluated example_host two_am saturated_txn, Some two_am).
Proof. vm_compute. reflexivity. Qed.

(** C7 (amended).  The score is not clamped, it exceeds 1 for some payloads,
    but it is bounded: for every host, clock reading and payload, the score
    of an evaluation that returns is at most the sum of all the weights but
    the medium-amount one, which is 2.5300000000000002 in binary64 and below
    2.54; that maximum is reached by a payload that triggers every rule. *)
Theorem score_is_bounded :
  (forall h now txn a t,
     evaluate h now txn = Ok (a, t) -> Num.leb (score a) max_score = true)
  /\ Num.ltb max_score (Num.dec 254 100) = true
  /\ Num.gtb max_score (Num.of_Z 1) = true
  /\ (exists a, evaluate example_host two_am saturated_txn = Ok (a, Some two_am)
        /\ score a = max_score).
Proof.
  split.
  - apply (score_cases (fun x => Num.leb x max_score)).
    vm_compute. reflexivity.
  - split; [ vm_compute; reflexivity | ].
    split; [ vm_compute; reflexivity | ].
    eexists. split; [ exact saturated_txn_evaluates | vm_compute; reflexivity ].
Qed.

Lemma score_is_bounded_witness :
  Num.leb (score (evaluated example_host two_am saturated_txn)) max_score = true.
Proof.
  exact (proj1 score_is_bounded example_host two_am saturated_txn _ _
           saturated_txn_evaluates).
Defined.

(** C7 as stated fails: no payload scores above 3. *)
Lemma score_is_not_unbounded :
  ~ (forall B : number,
       exists h now txn a t,
         evaluate h now txn = Ok (a, t) /\ Num.gtb (score a) B = true).
Proof.
  intros Hunb.
  destruct (Hunb (Num.of_Z 3)) as (h & now & txn & a & t & E & Hgt).
  pose proof (score_cases (fun x => negb (Num.gtb x (Num.of_Z 3)))
                ltac:(vm_compute; reflexivity) h now txn a t E) as Hle.
  cbv beta in Hle. rewrite Hgt in Hle. discriminate Hle.
Qed.

(* ------------------------------------------------------------------ *)
(** ** C8: errors stop at the message boundary *)

(** Two failing deliveries do not keep the third from being processed. *)
Lemma troubled_feed_still_stores :
  let s := snd (consume example_host troubled_feed empty_sys) in
  List.length (transactions s) = 1%nat /\ List.length (alerts s) = 1%nat /\
  console s =
    [ Error_processing TypeError; Error_processing SyntaxError;
      Info_processing "t1";
      Info_result "t1" (Num.dec 100 100) CRITICAL;
      Info_saved "t1";
      Info_alert_created "ALERT1767268800000k3x9q" CRITICAL ].
Proof. vm_compute. repeat split. Qed.

(** C8.  Whatever goes wrong while one message is handled (a null value,
    malformed JSON, a null payload, a value that cannot be converted to a
    string, a refused write), the handler returns normally; hence the
    consume loop goes through every delivered message, each message after a
    given one being handled from the state that one left behind; the process
    keeps running whenever the three start-up transport steps succeed, it
    never ends on an exception of the handler, and it exits, with status 1,
    exactly when one of those steps fails. *)
Theorem errors_contained_at_message_boundary (h : Host) :
  (forall env msg s, fst (eachMessage h env msg s) = Ok tt)
  /\ (forall feed s, fst (consume h feed s) = Ok tt)
  /\ (forall before env msg after s,
        consume h (before ++ (env, msg) :: after) s
        = consume h after (snd (eachMessage h env msg (snd (consume h before s)))))
  /\ (forall tr s e s', startup h tr s <> ConsumerCrashed e s')
  /\ (forall tr s,
        producer_connect_ok tr && consumer_connect_ok tr && subscribe_ok tr = true <->
        exists s', startup h tr s = Running s')
  /\ (forall tr s,
        producer_connect_ok tr && consumer_connect_ok tr && subscribe_ok tr = false <->
        exists s', startup h tr s = Exited 1 s').
Proof.
  split; [ apply eachMessage_returns | ].
  split; [ apply consume_returns | ].
  split.
  { intros before env msg after s. now rewrite consume_app, consume_cons. }
  assert (Hrun : forall tr s,
             producer_connect_ok tr && consumer_connect_ok tr && subscribe_ok tr = true ->
             exists s', startup h tr s = Running s').
  { intros tr s Hok. unfold startup. rewrite Hok. unfold bind at 1.
    unfold log at 1.
    match goal with
    | |- context [consume h (feed tr) ?s0] =>
        pose proof (consume_returns h (feed tr) s0) as Hc;
        destruct (consume h (feed tr) s0) as [[[]|e] s1]
    end; simpl in Hc; [ eauto | discriminate Hc ]. }
  assert (Hexit : forall tr s,
             producer_connect_ok tr && consumer_connect_ok tr && subscribe_ok tr = false ->
             exists s', startup h tr s = Exited 1 s').
  { intros tr s Hko. unfold startup. rewrite Hko. eauto. }
  split; [ | split ].
  - intros tr s e s' Hcrash.
    destruct (producer_connect_ok tr && consumer_connect_ok tr && subscribe_ok tr) eqn:Hok.
    + destruct (Hrun tr s Hok) as (s1 & Hs1). congruence.
    + destruct (Hexit tr s Hok) as (s1 & Hs1). congruence.
  - intros tr s. split; [ apply Hrun | ].
    intros (s' & Hs').
    destruct (producer_connect_ok tr && consumer_connect_ok tr && subscribe_ok tr) eqn:Hok;
      [ reflexivity | ].
    destruct (Hexit tr s Hok) as (s1 & Hs1). congruence.
  - intros tr s. split; [ apply Hexit | ].
    intros (s' & Hs').
    destruct (producer_connect_ok tr && consumer_connect_ok tr && subscribe_ok tr) eqn:Hok;
      [ | reflexivity ].
    destruct (Hrun tr s Hok) as (s1 & Hs1). congruence.
Qed.

(* ------------------------------------------------------------------ *)
(** ** C9: ill-typed amounts and decline counts trigger nothing *)

(** C9.  For every payload whose [amount] is present but is not a number,
    lines 95-101 leave the score and the indicators untouched and no
    UNUSUAL_TRANSACTION_AMOUNT indicator is produced; for every payload whose
    [previousDeclines] is present but is not an integer number, lines 126-129
    leave them untouched and no CARD_TESTING_PATTERN indicator is produced. *)
Theorem ill_typed_fields_trigger_nothing (h : Host) (now : Z) (txn : json) :
  (forall v, prop txn "amount" = Some v -> (forall n, v <> JNum n) ->
     (forall a, rule_amount h txn a = a) /\
     (forall a t, evaluate h now txn = Ok (a, t) ->
        ~ In "UNUSUAL_TRANSACTION_AMOUNT" (map code (indicators a))))
  /\ (forall v, prop txn "previousDeclines" = Some v ->
        (forall n, v = JNum n -> Num.isInteger n = false) ->
        (forall a, rule_declines h txn a = a) /\
        (forall a t, evaluate h now txn = Ok (a, t) ->
           ~ In "CARD_TESTING_PATTERN" (map code (indicators a)))).
Proof.
  split.
  - intros v Hv Hnum.
    assert (Hn : Spec.numeric txn "amount" = None).
    { unfold Spec.numeric. rewrite Hv. destruct v; try reflexivity.
      now contradiction (Hnum n). }
    split.
    + intros a. unfold rule_amount, number_above, as_number. rewrite Hv.
      destruct v; try reflexivity. now contradiction (Hnum n).
    + intros a t E. rewrite (evaluate_codes h now txn a t E).
      unfold Spec.matching. intros Hin.
      apply matching_row in Hin. destruct Hin as (r & Hr & Hh & Hc).
      unfold Spec.table, Spec.high_amount, Spec.medium_amount in Hr.
      rewrite Hn in Hr. simpl in Hr. absurd_row.
  - intros v Hv Hint.
    assert (Hn : Spec.holds_num (Spec.numeric txn "previousDeclines")
                   (fun n => Num.isInteger n && Num.geb n (Num.of_Z 3)) = false).
    { unfold Spec.holds_num, Spec.numeric. rewrite Hv. destruct v; try reflexivity.
      now rewrite (Hint n eq_refl). }
    split.
    + intros a. unfold rule_declines, integer_at_least_3.
      rewrite (number_test_agree txn "previousDeclines"
                 (fun n => Num.isInteger n && Num.geb n (Num.of_Z 3))).
      now rewrite Hn.
    + intros a t E. rewrite (evaluate_codes h now txn a t E).
      unfold Spec.matching. intros Hin.
      apply matching_row in Hin. destruct Hin as (r & Hr & Hh & Hc).
      unfold Spec.table in Hr. rewrite Hn in Hr. simpl in Hr. absurd_row.
Qed.

Lemma mistyped_txn_evaluates :
  evaluate example_host noon mistyped_txn
  = Ok (evaluated example_host noon mistyped_txn, Some noon).
Proof. vm_compute. reflexivity. Qed.

Lemma ill_typed_fields_trigger_nothing_witness :
  Num.geb (Num.dec 35 10) (Num.of_Z 3) = true
  /\ (forall a, rule_amount example_host mistyped_txn a = a)
  /\ ~ In "UNUSUAL_TRANSACTION_AMOUNT"
         (map code (indicators (evaluated example_host noon mistyped_txn)))
  /\ (forall a, rule_declines example_host mistyped_txn a = a)
  /\ ~ In "CARD_TESTING_PATTERN"
         (map code (indicators (evaluated example_host noon mistyped_txn)))
  /\ (forall a, rule_declines example_host text_declines_txn a = a).
Proof.
  destruct (ill_typed_fields_trigger_nothing example_host noon mistyped_txn)
    as (Hamount & Hdeclines).
  destruct (ill_typed_fields_trigger_nothing example_host noon text_declines_txn)
    as (_ & Htext).
  destruct (Hamount (JStr "150000") eq_refl) as (Ha & Hr); [ discriminate | ].
  destruct (Hdeclines (JNum (Num.dec 35 10)) eq_refl) as (Hd & Hq).
  { intros n E. injection E as <-. reflexivity. }
  destruct (Htext (JStr "5") eq_refl) as (Ht & _); [ discriminate | ].
  pose proof (Hr _ _ mistyped_txn_evaluates) as Hr'.
  pose proof (Hq _ _ mistyped_txn_evaluates) as Hq'.
  repeat split; assumption || reflexivity.
Defined.

(* ------------------------------------------------------------------ *)
(** ** C10: no alert without a stored transaction *)

(** C10.  For every message that parses, carries a (truthy) identifier and
    is evaluated without exception: if the store refuses the transaction
    write, the handler stores neither the transaction nor an alert, whatever
    the score, and logs the failure; and whenever the alerts did change, the
    transaction had been stored. *)
Theorem failed_transaction_write_blocks_alert
    (h : Host) (env : Env) (msg : KafkaMessage) (raw : string) (txn : json)
    (id : string) (a : acc) (t : Date) (s : Sys) :
  msg_value msg = Some raw ->
  JSON_parse h raw = Some txn ->
  truthy (identifier txn) = true ->
  template h (identifier txn) = Ok id ->
  evaluate h (now env) txn = Ok (a, t) ->
  let doc := transaction_doc txn (identifier txn) a t in
  let s' := snd (eachMessage h env msg s) in
  (Transaction_create_ok env doc = false ->
     alerts s' = alerts s /\ transactions s' = transactions s /\
     console s' = console s ++
       [Info_processing id; Info_result id (score a) (classify (score a));
        Error_processing StoreError])
  /\ (alerts s' <> alerts s ->
      Transaction_create_ok env doc = true /\
      transactions s' = transactions s ++ [doc]).
Proof.
  intros Hraw Hparse Hid Htext Heval doc s'.
  pose proof (eachMessage_identified h env msg raw txn s Hraw Hparse
                id a t Hid Htext Heval) as E.
  cbv zeta in E. fold doc in E. unfold s'. rewrite E. clear E.
  destruct (Transaction_create_ok env doc).
  - split; [ discriminate | ].
    intros _. split; [ reflexivity | ].
    repeat match goal with
           | |- context [if ?b then _ else _] => destruct b
           end; reflexivity.
  - split; [ intros _; repeat split | ].
    simpl. intros Hne. now contradiction Hne.
Qed.

(** The risky message (score 1.00) on a store that refuses the transaction
    write: nothing is stored. *)
Lemma failed_transaction_write_blocks_alert_witness :
  alert_due (score (evaluated example_host noon risky_txn)) = true /\
  alerts (snd (eachMessage example_host (env_tx_refused noon)
                 (msg_of risky_raw) empty_sys)) = [] /\
  transactions (snd (eachMessage example_host (env_tx_refused noon)
                       (msg_of risky_raw) empty_sys)) = [].
Proof.
  split; [ vm_compute; reflexivity | ].
  destruct (failed_transaction_write_blocks_alert
              example_host (env_tx_refused noon) (msg_of risky_raw) risky_raw
              risky_txn "t1" (evaluated example_host noon risky_txn) (Some noon)
              empty_sys eq_refl eq_refl eq_refl eq_refl risky_txn_evaluates)
    as (H & _).
  destruct (H eq_refl) as (Hal & Htx & _).
  split; assumption.
Defined.

(* ------------------------------------------------------------------ *)
(** * Further properties *)

(* ------------------------------------------------------------------ *)
(** ** What one message, and a feed, add to the store *)

(** A score that raises an alert is never classified LOW, for every
    number. *)
Lemma alert_due_not_low (x : number) :
  alert_due x = true -> classify x <> LOW.
Proof.
  intros Hdue.
  assert (H3 : Num.geb x (Num.dec 3 10) = true).
  { revert Hdue. unfold alert_due, alertThreshold, Num.geb, SFleb.
    replace (Num.dec 4 10) with (S754_finite false 7205759403792794 (-54))
      by (vm_compute; reflexivity).
    replace (Num.dec 3 10) with (S754_finite false 5404319552844595 (-54))
      by (vm_compute; reflexivity).
    destruct x as [sg|sg| |sg m e]; cbv [SFcompare];
      try (destruct sg; congruence); try congruence.
    destruct sg; try congruence.
    destruct (Z.compare (-54) e) eqn:E; try congruence.
    change (Pos.compare_cont Eq 7205759403792794 m)
      with (Pos.compare 7205759403792794 m).
    change (Pos.compare_cont Eq 5404319552844595 m)
      with (Pos.compare 5404319552844595 m).
    destruct (Pos.compare 7205759403792794 m) eqn:C; try discriminate; intros _.
    - apply Pos.compare_eq in C. subst m. reflexivity.
    - apply Pos.compare_lt_iff in C.
      assert (H0 : (5404319552844595 < m)%positive)
        by (eapply Pos.lt_trans; [ | exact C ]; reflexivity).
      apply Pos.compare_lt_iff in H0. now rewrite H0. }
  unfold classify. rewrite H3.
  destruct (Num.geb x (Num.dec 7 10)), (Num.geb x (Num.dec 5 10)); discriminate.
Qed.

Lemma alert_doc_fresh (env : Env) (txn : json) (id : value) (a : acc) :
  alert_due (score a) = true -> fresh_alert (alert_doc env txn id a).
Proof.
  intros Hdue. unfold fresh_alert. simpl.
  repeat split; try assumption. now apply alert_due_not_low.
Qed.

Lemma alert_doc_matches (env : Env) (txn : json) (id : value) (a : acc) (t : Date) :
  alert_matches (alert_doc env txn id a) (transaction_doc txn id a t).
Proof. unfold alert_matches. simpl. repeat split. Qed.

(** Whatever the message and the answers of the store, the handler either
    leaves both collections alone, or appends one transaction, or appends
    one transaction and then the alert that goes with it. *)
Lemma eachMessage_effect (h : Host) (env : Env) (msg : KafkaMessage) (s : Sys) :
  let s' := snd (eachMessage h env msg s) in
  (transactions s' = transactions s /\ alerts s' = alerts s)
  \/ exists txn a t,
       truthy (identifier txn) = true
       /\ evaluate h (now env) txn = Ok (a, t)
       /\ transactions s'
          = transactions s ++ [transaction_doc txn (identifier txn) a t]
       /\ (alerts s' = alerts s
           \/ (alert_due (score a) = true
               /\ alerts s' = alerts s ++ [alert_doc env txn (identifier txn) a])).
Proof.
  cbv zeta.
  destruct (msg_value msg) as [raw|] eqn:Hraw;
    [ | left; run_handler; rewrite Hraw; split; reflexivity ].
  destruct (JSON_parse h raw) as [txn|] eqn:Hparse;
    [ | left; run_handler; rewrite Hraw, Hparse; split; reflexivity ].
  destruct (truthy (identifier txn)) eqn:Hid;
    [ | left; rewrite (eachMessage_unidentified h env msg raw txn s Hraw Hparse Hid);
        split; reflexivity ].
  destruct (eachMessage_conversion_throws h env msg raw txn s Hraw Hparse Hid)
    as (Htext & Heval).
  destruct (template h (identifier txn)) as [id|e] eqn:Eid;
    [ | left; rewrite (Htext e eq_refl); split; reflexivity ].
  destruct (evaluate h (now env) txn) as [[a t]|e] eqn:Eev;
    [ | left; rewrite (Heval id e eq_refl eq_refl); split; reflexivity ].
  rewrite (eachMessage_identified h env msg raw txn s Hraw Hparse id a t Hid Eid Eev).
  cbv zeta.
  destruct (Transaction_create_ok env _); [ | left; split; reflexivity ].
  right. exists txn, a, t. split; [ exact Hid | ]. split; [ exact Eev | ].
  destruct (alert_due (score a)) eqn:Hdue;
    [ destruct (Alert_create_ok env _) | ]; simpl;
    (split; [ reflexivity | ]); auto.
Qed.

(** The same over a whole feed. *)
Lemma consume_effect (h : Host) (feed : list (Env * KafkaMessage)) (s : Sys) :
  exists added_tx added_al,
    transactions (snd (consume h feed s)) = transactions s ++ added_tx
    /\ alerts (snd (consume h feed s)) = alerts s ++ added_al
    /\ (List.length added_al <= List.length added_tx)%nat
    /\ (List.length added_tx <= List.length feed)%nat
    /\ Forall fresh_alert added_al
    /\ Forall (fun al => exists d, In d added_tx /\ alert_matches al d) added_al.
Proof.
  revert s. induction feed as [|[env msg] rest IH]; intros s.
  - exists [], []. simpl. rewrite !app_nil_r. repeat split; auto.
  - rewrite consume_cons.
    destruct (IH (snd (eachMessage h env msg s)))
      as (ta & aa & Ht & Ha & Hle & Hlen & Hfresh & Hmatch).
    rewrite Ht, Ha.
    assert (Hweak : forall d0,
               Forall (fun al => exists d, In d ta /\ alert_matches al d) aa ->
               Forall (fun al => exists d, In d (d0 :: ta) /\ alert_matches al d) aa).
    { intros d0 HF. eapply Forall_impl; [ | exact HF ].
      intros al (d & Hd & Hm). exists d. split; [ now right | exact Hm ]. }
    destruct (eachMessage_effect h env msg s)
      as [(Et & Ea) | (txn & a & t & _ & _ & Et & [Ea | (Hdue & Ea)])];
      cbv zeta in *; rewrite Et, Ea.
    + exists ta, aa. simpl.
      split; [ reflexivity | ]. split; [ reflexivity | ].
      split; [ lia | ]. split; [ lia | ]. split; assumption.
    + exists (transaction_doc txn (identifier txn) a t :: ta), aa.
      rewrite <- app_assoc. simpl.
      split; [ reflexivity | ]. split; [ reflexivity | ].
      split; [ lia | ]. split; [ lia | ]. split; [ assumption | now apply Hweak ].
    + exists (transaction_doc txn (identifier txn) a t :: ta),
             (alert_doc env txn (identifier txn) a :: aa).
      rewrite <- !app_assoc. simpl.
      split; [ reflexivity | ]. split; [ reflexivity | ].
      split; [ lia | ]. split; [ lia | ]. split.
      * constructor; [ now apply alert_doc_fresh | exact Hfresh ].
      * constructor; [ | now apply Hweak ].
        eexists. split; [ now left | apply alert_doc_matches ].
Qed.

(** X1.  Over any feed, from any store, the consume loop keeps every
    document that was there, adds at most one transaction per delivered
    message, and adds no more alerts than transactions. *)
Theorem consume_appends_within_bounds
    (h : Host) (feed : list (Env * KafkaMessage)) (s : Sys) :
  exists added_tx added_al,
    transactions (snd (consume h feed s)) = transactions s ++ added_tx
    /\ alerts (snd (consume h feed s)) = alerts s ++ added_al
    /\ (List.length added_al <= List.length added_tx <= List.length feed)%nat.
Proof.
  destruct (consume_effect h feed s) as (ta & aa & Ht & Ha & Hle & Hlen & _).
  exists ta, aa. repeat split; assumption.
Qed.

(** X2.  Every alert the consume loop creates is PENDING, carries no review
    field, has the risk level of its own score, a score of at least 0.40, and
    is therefore never LOW. *)
Theorem created_alerts_are_pending_and_not_low
    (h : Host) (feed : list (Env * KafkaMessage)) (s : Sys) :
  exists added_al,
    alerts (snd (consume h feed s)) = alerts s ++ added_al
    /\ Forall (fun al =>
                 status al = Some (JStr "PENDING")
                 /\ assignedTo al = None /\ reviewedAt al = None
                 /\ action al = None /\ comments al = None
                 /\ al_riskLevel al = classify (al_mlScore al)
                 /\ Num.geb (al_mlScore al) (Num.dec 4 10) = true
                 /\ al_riskLevel al <> LOW) added_al.
Proof.
  destruct (consume_effect h feed s) as (ta & aa & _ & Ha & _ & _ & Hfresh & _).
  exists aa. split; [ exact Ha | exact Hfresh ].
Qed.

(** X3.  Every alert the consume loop creates goes with a transaction stored
    by the same run that has the same identifier, score and risk level, and
    whose fraud indicators are the messages of the alert's reasons, in
    order. *)
Theorem created_alerts_match_a_stored_transaction
    (h : Host) (feed : list (Env * KafkaMessage)) (s : Sys) :
  exists added_tx added_al,
    transactions (snd (consume h feed s)) = transactions s ++ added_tx
    /\ alerts (snd (consume h feed s)) = alerts s ++ added_al
    /\ Forall (fun al =>
                 exists d, In d added_tx
                   /\ al_transactionId al = tx_transactionId d
                   /\ al_mlScore al = tx_mlScore d
                   /\ al_riskLevel al = tx_riskLevel d
                   /\ map message (reasons al) = tx_fraudIndicators d) added_al.
Proof.
  destruct (consume_effect h feed s) as (ta & aa & Ht & Ha & _ & _ & _ & Hmatch).
  exists ta, aa. repeat split; assumption.
Qed.

(** X4.  The handler does not deduplicate: when the same text is delivered
    twice and both transaction writes are accepted, two transactions with
    the same identifier are stored, one after the other. *)
Theorem same_message_twice_is_stored_twice
    (h : Host) (env1 env2 : Env) (msg : KafkaMessage) (raw : string) (txn : json)
    (id : string) (a1 a2 : acc) (t1 t2 : Date) (s : Sys) :
  msg_value msg = Some raw ->
  JSON_parse h raw = Some txn ->
  truthy (identifier txn) = true ->
  template h (identifier txn) = Ok id ->
  evaluate h (now env1) txn = Ok (a1, t1) ->
  evaluate h (now env2) txn = Ok (a2, t2) ->
  let d1 := transaction_doc txn (identifier txn) a1 t1 in
  let d2 := transaction_doc txn (identifier txn) a2 t2 in
  Transaction_create_ok env1 d1 = true ->
  Transaction_create_ok env2 d2 = true ->
  transactions (snd (consume h [(env1, msg); (env2, msg)] s))
  = transactions s ++ [d1; d2]
  /\ tx_transactionId d1 = tx_transactionId d2.
Proof.
  intros Hraw Hparse Hid Htext E1 E2 d1 d2 Hok1 Hok2.
  split; [ | reflexivity ].
  rewrite !consume_cons. simpl consume. unfold ret. cbn [snd].
  rewrite (eachMessage_identified h env2 msg raw txn _ Hraw Hparse id a2 t2 Hid Htext E2).
  cbv zeta. fold d2. rewrite Hok2.
  assert (H1 : transactions (snd (eachMessage h env1 msg s)) = transactions s ++ [d1]).
  { rewrite (eachMessage_identified h env1 msg raw txn s Hraw Hparse id a1 t1 Hid Htext E1).
    cbv zeta. fold d1. rewrite Hok1.
    repeat match goal with
           | |- context [if ?b then _ else _] => destruct b
           end; reflexivity. }
  repeat match goal with
         | |- context [if ?b then _ else _] => destruct b
         end; simpl; rewrite H1, <- app_assoc; reflexivity.
Qed.

Lemma same_message_twice_is_stored_twice_witness :
  List.length
    (transactions (snd (consume example_host
                          [(env_at noon, msg_of risky_raw);
                           (env_at two_am, msg_of risky_raw)] empty_sys)))
  = 2%nat.
Proof.
  destruct (same_message_twice_is_stored_twice
              example_host (env_at noon) (env_at two_am) (msg_of risky_raw)
              risky_raw risky_txn "t1"
              (evaluated example_host noon risky_txn)
              (evaluated example_host two_am risky_txn) (Some noon) (Some two_am)
              empty_sys eq_refl eq_refl eq_refl eq_refl
              ltac:(vm_compute; reflexivity) ltac:(vm_compute; reflexivity)
              eq_refl eq_refl) as (H & _).
  rewrite H. reflexivity.
Defined.

(* ------------------------------------------------------------------ *)
(** ** Which indicators raise an alert on their own *)

Lemma matching_count (rows : list rule_row) :
  List.length (filter row_holds rows)
  = List.length (filter (fun b : bool => b) (map row_holds rows)).
Proof.
  induction rows as [|r rows IH]; simpl; [ reflexivity | ].
  destruct (row_holds r); simpl; now rewrite IH.
Qed.

(** X5.  For every evaluation that returns: with no indicator the score is
    0, the level LOW and no alert is due; with exactly one indicator, an
    alert is due if and only if that indicator is HIGH_RISK_GEOGRAPHY. *)
Theorem lone_indicator_alerts_only_for_geography
    (h : Host) (now : Z) (txn : json) (a : acc) (t : Date) :
  evaluate h now txn = Ok (a, t) ->
  (indicators a = [] ->
     score a = Num.of_Z 0 /\ classify (score a) = LOW /\ alert_due (score a) = false)
  /\ (forall i, indicators a = [i] ->
        (alert_due (score a) = true <-> code i = "HIGH_RISK_GEOGRAPHY")).
Proof.
  intros E.
  pose proof (evaluate_codes h now txn a t E) as Hcodes.
  set (hour := getHours h t) in *.
  split.
  - intros Hnone. rewrite Hnone in Hcodes. simpl in Hcodes.
    symmetry in Hcodes. apply map_eq_nil in Hcodes.
    rewrite (evaluate_score h now txn a t E). fold hour.
    unfold Spec.score. rewrite Hcodes.
    repeat split; vm_compute; reflexivity.
  - intros i Hone. rewrite Hone in Hcodes. simpl in Hcodes.
    pose proof (outcome_cases
                  (fun v x =>
                     implb (Nat.eqb (List.length (filter (fun b : bool => b) v)) 1)
                           (Bool.eqb (alert_due x) (hd false v)))
                  ltac:(vm_compute; reflexivity) h now txn a t E) as H.
    cbv beta in H. fold hour in H.
    rewrite <- matching_count in H. fold (Spec.matching txn hour) in H.
    assert (Hlen : List.length (Spec.matching txn hour) = 1%nat).
    { rewrite <- (length_map row_code), <- Hcodes. reflexivity. }
    rewrite Hlen in H. simpl implb in H. apply Bool.eqb_prop in H. rewrite H.
    change (hd false (map row_holds (Spec.table txn hour)))
      with (Spec.reads (Spec.location_risk txn) "high").
    unfold Spec.matching in Hcodes.
    change (Spec.table txn hour)
      with (Spec.row "HIGH_RISK_GEOGRAPHY" (Num.dec 50 100)
              (Spec.reads (Spec.location_risk txn) "high")
            :: tl (Spec.table txn hour)) in Hcodes.
    remember (tl (Spec.table txn hour)) as rest eqn:Hrest.
    cbn [filter row_holds Spec.row] in Hcodes.
    destruct (Spec.reads (Spec.location_risk txn) "high").
    + cbn [map row_code Spec.row] in Hcodes. injection Hcodes as Hi _.
      split; [ intros _; exact Hi | reflexivity ].
    + split; [ discriminate | ].
      intros Hi. exfalso.
      assert (Hin : In "HIGH_RISK_GEOGRAPHY" (map row_code (filter row_holds rest)))
        by (rewrite <- Hcodes, Hi; now left).
      apply matching_row in Hin. destruct Hin as (r & Hr & Hh & Hc).
      rewrite Hrest in Hr. unfold Spec.table in Hr. cbn [tl In] in Hr.
      repeat match goal with
             | Hd : _ \/ _ |- _ => destruct Hd as [Hd|Hd]
             end;
        try contradiction; subst r; discriminate Hc.
Qed.

(** [{id: "t7", cvvMatch: false}]: one indicator, CVV, and no alert. *)
Lemma lone_indicator_alerts_only_for_geography_witness :
  exists a, evaluate example_host noon lone_cvv_txn = Ok (a, Some noon)
    /\ map code (indicators a) = ["CVV_VERIFICATION_FAILED"]
    /\ alert_due (score a) = false.
Proof.
  exists (evaluated example_host noon lone_cvv_txn).
  assert (E : evaluate example_host noon lone_cvv_txn
              = Ok (evaluated example_host noon lone_cvv_txn, Some noon))
    by (vm_compute; reflexivity).
  split; [ exact E | ]. split; [ vm_compute; reflexivity | ].
  destruct (lone_indicator_alerts_only_for_geography _ _ _ _ _ E) as (_ & Hone).
  destruct (alert_due (score (evaluated example_host noon lone_cvv_txn))) eqn:Hd;
    [ | reflexivity ].
  exfalso.
  assert (Hi : indicators (evaluated example_host noon lone_cvv_txn)
               = [ {| code := "CVV_VERIFICATION_FAILED";
                      message := "CVV verification failed" |} ])
    by (vm_compute; reflexivity).
  pose proof (proj1 (Hone _ Hi) eq_refl) as Hc. discriminate Hc.
Defined.

(* ------------------------------------------------------------------ *)
(** ** More on the review endpoint (lines 245-267) *)

Lemma findOneAndUpdate_keeps (B : Type) (f : Alert -> B) (id : string)
    (update : Alert -> Alert) (l : list Alert) :
  (forall a, f (update a) = f a) ->
  map f (snd (findOneAndUpdate id update l)) = map f l.
Proof.
  intros Hf. induction l as [|a rest IH]; simpl; [ reflexivity | ].
  destruct (String.eqb (alertId a) id); simpl.
  - now rewrite Hf.
  - destruct (findOneAndUpdate id update rest) as [r rest']. simpl in *.
    now rewrite IH.
Qed.

Lemma findOneAndUpdate_twice (id : string) (u1 u2 : Alert -> Alert)
    (l : list Alert) :
  (forall a, alertId (u1 a) = alertId a) ->
  findOneAndUpdate id u2 (snd (findOneAndUpdate id u1 l))
  = findOneAndUpdate id (fun a => u2 (u1 a)) l.
Proof.
  intros Hid. induction l as [|a rest IH]; simpl; [ reflexivity | ].
  destruct (String.eqb (alertId a) id) eqn:E; simpl.
  - now rewrite Hid, E.
  - destruct (findOneAndUpdate id u1 rest) as [r rest']. simpl in *.
    rewrite E, IH.
    now destruct (findOneAndUpdate id (fun a0 => u2 (u1 a0)) rest).
Qed.

(** X6.  Whatever the request and whatever the store answers, a review
    leaves the transactions alone and keeps, alert by alert and in order,
    every field other than the five review fields; in particular no alert is
    added, removed or given another [alertId].  When the store rejects the
    update the answer is the error response and no alert changes at all. *)
Theorem applyReview_keeps_everything_else (env : Env) (req : ReviewRequest) (s : Sys) :
  let r := applyReview env req s in
  transactions (snd r) = transactions s
  /\ map (fun a => (alertId a, al_transactionId a, transaction a, al_mlScore a,
                    al_riskLevel a, reasons a, createdAt a)) (alerts (snd r))
     = map (fun a => (alertId a, al_transactionId a, transaction a, al_mlScore a,
                      al_riskLevel a, reasons a, createdAt a)) (alerts s)
  /\ (Alert_update_ok env = false ->
      fst r = Ok (Json500 StoreError) /\ alerts (snd r) = alerts s
      /\ console (snd r) = console s ++ [Error_update_alert StoreError]).
Proof.
  cbv zeta. rewrite applyReview_run.
  destruct (cast_update_cases env (body req))
    as [(act & cmt & asg & _ & _ & _ & Hu) | (Hu & _)]; rewrite Hu.
  - destruct (Alert_update_ok env).
    + simpl. split; [ reflexivity | ]. split; [ | discriminate ].
      apply findOneAndUpdate_keeps. reflexivity.
    + simpl. repeat split.
  - simpl. repeat split.
Qed.

Lemma applyReview_keeps_everything_else_witness :
  fst (applyReview (env_update_refused two_am)
         (approve "ALERT1767268800000k3x9q") one_alert_sys)
  = Ok (Json500 StoreError)
  /\ alerts (snd (applyReview (env_update_refused two_am)
                    (approve "ALERT1767268800000k3x9q") one_alert_sys))
     = alerts one_alert_sys.
Proof.
  destruct (applyReview_keeps_everything_else (env_update_refused two_am)
              (approve "ALERT1767268800000k3x9q") one_alert_sys) as (_ & _ & H).
  destruct (H eq_refl) as (Hr & Ha & _).
  split; assumption.
Defined.

(** X7.  No history is kept: with the store answering, a second review of
    the same [alertId] that submits an action, comments and an assignee
    leaves the alerts exactly as if the first review had never been made. *)
Theorem second_review_overwrites_first
    (env1 env2 : Env) (req1 req2 : ReviewRequest) (s : Sys)
    (act cmt asg : string) :
  Alert_update_ok env1 = true ->
  Alert_update_ok env2 = true ->
  params_alertId req1 = params_alertId req2 ->
  lookup "action" (body req2) = Some (JStr act) ->
  lookup "comments" (body req2) = Some (JStr cmt) ->
  lookup "assignedTo" (body req2) = Some (JStr asg) ->
  alerts (snd (applyReview env2 req2 (snd (applyReview env1 req1 s))))
  = alerts (snd (applyReview env2 req2 s))
  /\ fst (applyReview env2 req2 (snd (applyReview env1 req1 s)))
     = fst (applyReview env2 req2 s).
Proof.
  intros Hup1 Hup2 Hid Hact Hcmt Hasg.
  set (u2 := review (Some (JStr act)) (Some (JStr cmt)) (Some (JStr asg))
                    (reviewNow env2)).
  assert (Hu2 : cast_update env2 (body req2) = Ok u2).
  { unfold cast_update, and_then. rewrite Hact, Hcmt, Hasg. reflexivity. }
  rewrite !(applyReview_run env2 req2), Hu2, Hup2.
  assert (Halerts : alerts (snd (applyReview env1 req1 s)) = alerts s
                    \/ exists a1 c1 g1,
                         alerts (snd (applyReview env1 req1 s))
                         = snd (findOneAndUpdate (params_alertId req2)
                                  (review a1 c1 g1 (reviewNow env1)) (alerts s))).
  { rewrite applyReview_run.
    destruct (cast_update_cases env1 (body req1))
      as [(a1 & c1 & g1 & _ & _ & _ & Hu) | (Hu & _)]; rewrite Hu.
    - rewrite Hup1, Hid. right. exists a1, c1, g1. reflexivity.
    - left. reflexivity. }
  destruct Halerts as [-> | (a1 & c1 & g1 & ->)].
  - split; reflexivity.
  - rewrite (findOneAndUpdate_twice (params_alertId req2)
               (review a1 c1 g1 (reviewNow env1)) u2 (alerts s) (fun a => eq_refl)).
    assert (Hsame : forall l,
               findOneAndUpdate (params_alertId req2)
                 (fun a => u2 (review a1 c1 g1 (reviewNow env1) a)) l
               = findOneAndUpdate (params_alertId req2) u2 l).
    { induction l as [|a rest IH]; simpl; [ reflexivity | ].
      now rewrite IH. }
    rewrite Hsame. split; reflexivity.
Qed.

Lemma second_review_overwrites_first_witness :
  alerts (snd (applyReview (env_at two_am) (approve "ALERT1767268800000k3x9q")
                 (snd (applyReview (env_at noon) (escalate "ALERT1767268800000k3x9q")
                         one_alert_sys))))
  = alerts (snd (applyReview (env_at two_am) (approve "ALERT1767268800000k3x9q")
                   one_alert_sys)).
Proof.
  exact (proj1 (second_review_overwrites_first
                  (env_at noon) (env_at two_am)
                  (escalate "ALERT1767268800000k3x9q")
                  (approve "ALERT1767268800000k3x9q")
                  one_alert_sys "APPROVED" "verified with customer" "analyst1"
                  eq_refl eq_refl eq_refl eq_refl eq_refl eq_refl)).
Defined.

(* ------------------------------------------------------------------ *)
(** ** The maintenance endpoint (lines 269-325) *)

Ltac run_http :=
  cbv [cleanup stats submit list_alerts list_transactions deliver
       wtry wbind wret wlog await producer_send find_sorted_limited
       countDocuments Transaction_deleteMany Alert_deleteMany set_collections].

(** X8.  Nothing is deleted without the configured secret: for every body
    whose [password] is not the string that [CLEANUP_PASSWORD] (or, when it
    is unset or empty, ['140301']) holds, whatever the store would answer,
    the collections and the topic are left as they are, and the answer is
    401 when the password is missing or falsy and 403 otherwise. *)
Theorem cleanup_needs_the_password
    (e : HttpEnv) (body : list (string * json)) (w : World) :
  is_string (lookup "password" body) (cleanup_password e) = false ->
  let r := cleanup e body w in
  sys (snd r) = sys w
  /\ topic (snd r) = topic w
  /\ (truthy (lookup "password" body) = false ->
      fst r = inr Cleanup_401 /\ snd r = w)
  /\ (truthy (lookup "password" body) = true ->
      fst r = inr Cleanup_403
      /\ journal (snd r) = journal w ++ [Warn_failed_cleanup (isoNow e)]).
Proof.
  intros Hwrong. run_http. rewrite Hwrong.
  destruct (truthy (lookup "password" body)); simpl;
    repeat split; try discriminate.
Qed.

(** The number 140301 is not the password ['140301']. *)
Lemma cleanup_needs_the_password_witness :
  fst (cleanup http_env_ok [("password", JNum (Num.of_Z 140301))] busy_world)
  = inr Cleanup_403
  /\ sys (snd (cleanup http_env_ok [("password", JNum (Num.of_Z 140301))] busy_world))
     = sys busy_world.
Proof.
  destruct (cleanup_needs_the_password http_env_ok
              [("password", JNum (Num.of_Z 140301))] busy_world eq_refl)
    as (Hsys & _ & _ & H403).
  split; [ exact (proj1 (H403 eq_refl)) | exact Hsys ].
Defined.



(** X10.  The two deletions are not atomic: with the right password, when
    the transactions are deleted and the deletion of the alerts is then
    rejected, the answer is the error response, the transactions are gone
    and the alerts are all still there; and whatever the store answers, the
    alerts are only ever emptied after the transactions have been. *)
Theorem cleanup_can_stop_half_way
    (e : HttpEnv) (body : list (string * json)) (w : World) :
  is_string (lookup "password" body) (cleanup_password e) = true ->
  let r := cleanup e body w in
  (Transaction_deleteMany_ok e = true -> Alert_deleteMany_ok e = false ->
     fst r = inr (Cleanup_500 StoreFault)
     /\ transactions (sys (snd r)) = []
     /\ alerts (sys (snd r)) = alerts (sys w))
  /\ (Transaction_deleteMany_ok e = false ->
      fst r = inr (Cleanup_500 StoreFault) /\ sys (snd r) = sys w)
  /\ (alerts (sys (snd r)) <> alerts (sys w) -> transactions (sys (snd r)) = []).
Proof.
  intros Hright. run_http.
  assert (Htruthy : truthy (lookup "password" body) = true).
  { destruct (lookup "password" body) as [[ | | |p| | ]|]; try discriminate Hright.
    simpl in Hright. apply String.eqb_eq in Hright. subst p.
    unfold cleanup_password.
    destruct (CLEANUP_PASSWORD e) as [v|]; [ | reflexivity ].
    destruct (String.eqb v "") eqn:Ev; simpl; [ reflexivity | now rewrite Ev ]. }
  rewrite Htruthy, Hright.
  destruct w as [[txs als con] tp jr].
  destruct (Transaction_deleteMany_ok e), (Alert_deleteMany_ok e),
           (recount_transactions_ok e), (recount_alerts_ok e);
    simpl; repeat split; try discriminate; try reflexivity;
    intros H; try reflexivity; now contradiction H.
Qed.

Lemma cleanup_can_stop_half_way_witness :
  transactions (sys (snd (cleanup http_env_alerts_stuck
                            [("password", JStr "140301")] busy_world))) = []
  /\ alerts (sys (snd (cleanup http_env_alerts_stuck
                         [("password", JStr "140301")] busy_world)))
     = alerts (sys busy_world).
Proof.
  destruct (cleanup_can_stop_half_way http_env_alerts_stuck
              [("password", JStr "140301")] busy_world eq_refl) as (H & _).
  destruct (H eq_refl eq_refl) as (_ & Ht & Ha).
  split; assumption.
Defined.

(* ------------------------------------------------------------------ *)
(** ** The statistics endpoint (lines 222-243) *)


Lemma filter_all {A} (p : A -> bool) (l : list A) :
  Forall (fun x => p x = true) l -> filter p l = l.
Proof.
  induction 1 as [|x l Hx _ IH]; simpl; [ reflexivity | ].
  now rewrite Hx, IH.
Qed.

Lemma filter_true {A} (l : list A) : filter (fun _ => true) l = l.
Proof. induction l as [|x l IH]; simpl; [ reflexivity | now rewrite IH ]. Qed.



(** X12.  Statistics taken after the consumer has run over any feed, starting
    from empty collections, with the store answering: every alert is
    pending, there are no more alerts than transactions, and no more
    transactions than delivered messages. *)
Theorem stats_after_consuming
    (h : Host) (e : HttpEnv) (feed : list (Env * KafkaMessage)) (w : World) :
  transactions (sys w) = [] ->
  alerts (sys w) = [] ->
  count_transactions_ok e = true -> count_alerts_ok e = true ->
  count_critical_ok e = true -> count_pending_ok e = true ->
  let w' := {| sys := snd (consume h feed (sys w));
               topic := topic w; journal := journal w |} in
  exists d,
    fst (stats e w') = inr (Stats_ok d)
    /\ pendingAlerts d = totalAlerts d
    /\ (totalAlerts d <= totalTransactions d)%Z
    /\ (totalTransactions d <= Z.of_nat (List.length feed))%Z.
Proof.
  intros Ht0 Ha0 H1 H2 H3 H4 w'.
  destruct (consume_effect h feed (sys w))
    as (ta & aa & Ht & Ha & Hle & Hlen & Hfresh & _).
  rewrite Ht0 in Ht. rewrite Ha0 in Ha. simpl in Ht, Ha.
  run_http. rewrite H1, H2, H3, H4. simpl.
  eexists. split; [ reflexivity | ]. simpl. rewrite !filter_true, Ht, Ha.
  assert (Hpending : filter is_pending aa = aa).
  { apply filter_all. eapply Forall_impl; [ | exact Hfresh ].
    intros al (Hst & _). unfold is_pending. now rewrite Hst. }
  rewrite Hpending. repeat split; lia.
Qed.

Lemma stats_after_consuming_witness :
  exists d,
    fst (stats http_env_ok
           {| sys := snd (consume example_host troubled_feed empty_sys);
              topic := []; journal := [] |}) = inr (Stats_ok d)
    /\ pendingAlerts d = totalAlerts d.
Proof.
  destruct (stats_after_consuming example_host http_env_ok troubled_feed empty_world
              eq_refl eq_refl eq_refl eq_refl eq_refl eq_refl)
    as (d & Hr & Hp & _).
  exists d. split; assumption.
Defined.

(* ------------------------------------------------------------------ *)
(** ** The listings (lines 202-220) *)

(** The first [n] documents of a sorted collection. *)
Lemma page_facts {A} (R : A -> A -> Prop) (sorted l : list A) (n : nat) :
  Permutation sorted l ->
  StronglySorted R sorted ->
  List.length (firstn n sorted) = Nat.min n (List.length l)
  /\ (forall x, In x (firstn n sorted) -> In x l)
  /\ StronglySorted R (firstn n sorted)
  /\ (forall x y, In x (firstn n sorted) -> In y (skipn n sorted) -> R x y)
  /\ Permutation (firstn n sorted ++ skipn n sorted) l
  /\ ((List.length l <= n)%nat -> Permutation (firstn n sorted) l).
Proof.
  intros Hperm Hsorted.
  split; [ rewrite length_firstn, (Permutation_length Hperm); reflexivity | ].
  split.
  { intros x Hx. eapply Permutation_in; [ exact Hperm | ].
    rewrite <- (firstn_skipn n sorted). apply in_or_app. now left. }
  assert (Hsplit : StronglySorted R (firstn n sorted)
                   /\ forall x y, In x (firstn n sorted) ->
                                  In y (skipn n sorted) -> R x y).
  { clear Hperm. revert n. induction Hsorted as [|a rest Hrest IH Hall]; intros n.
    - destruct n; simpl; split; try constructor; intros x y [].
    - destruct n as [|n]; simpl.
      + split; [ constructor | intros x y [] ].
      + destruct (IH n) as (IHs & IHr). split.
        * constructor; [ exact IHs | ].
          rewrite Forall_forall in *. intros x Hx. apply Hall.
          rewrite <- (firstn_skipn n rest). apply in_or_app. now left.
        * intros x y [<-|Hx] Hy.
          -- rewrite Forall_forall in Hall. apply Hall.
             rewrite <- (firstn_skipn n rest). apply in_or_app. now right.
          -- now apply IHr. }
  split; [ exact (proj1 Hsplit) | ]. split; [ exact (proj2 Hsplit) | ].
  split; [ now rewrite firstn_skipn | ].
  intros Hshort. rewrite firstn_all2; [ exact Hperm | ].
  now rewrite (Permutation_length Hperm).
Qed.

(** X13.  With the store answering and sorting the alerts by [createdAt],
    newest first, the alert listing changes nothing and returns at most 5000
    alerts, all of them stored, newest first, none older than an alert it
    leaves out, and every alert when there are at most 5000. *)
Theorem list_alerts_returns_the_newest (e : HttpEnv) (w : World) :
  Alert_find_ok e = true ->
  Permutation (sort_alerts e (alerts (sys w))) (alerts (sys w)) ->
  StronglySorted alert_not_older (sort_alerts e (alerts (sys w))) ->
  exists page left_out,
    list_alerts e w = (inr (List_ok page), w)
    /\ List.length page = Nat.min 5000 (List.length (alerts (sys w)))
    /\ (forall a, In a page -> In a (alerts (sys w)))
    /\ StronglySorted alert_not_older page
    /\ Permutation (page ++ left_out) (alerts (sys w))
    /\ (forall a b, In a page -> In b left_out -> (createdAt b <= createdAt a)%Z)
    /\ ((List.length (alerts (sys w)) <= 5000)%nat ->
        Permutation page (alerts (sys w))).
Proof.
  intros Hok Hperm Hsorted.
  destruct (page_facts alert_not_older _ _ page_limit Hperm Hsorted)
    as (Hlen & Hin & Hs & Hrest & Hall & Hshort).
  exists (firstn page_limit (sort_alerts e (alerts (sys w)))),
         (skipn page_limit (sort_alerts e (alerts (sys w)))).
  split; [ run_http; rewrite Hok; reflexivity | ].
  repeat split; assumption.
Qed.

(** X14.  With the store answering and sorting the transactions by
    [timestamp], newest first, the transaction listing changes nothing and
    returns at most 5000 transactions, all of them stored, newest first,
    none older than a transaction it leaves out, and every transaction when
    there are at most 5000. *)
Theorem list_transactions_returns_the_newest (e : HttpEnv) (w : World) :
  Transaction_find_ok e = true ->
  Permutation (sort_transactions e (transactions (sys w))) (transactions (sys w)) ->
  StronglySorted transaction_not_older (sort_transactions e (transactions (sys w))) ->
  exists page left_out,
    list_transactions e w = (inr (List_ok page), w)
    /\ List.length page = Nat.min 5000 (List.length (transactions (sys w)))
    /\ (forall d, In d page -> In d (transactions (sys w)))
    /\ StronglySorted transaction_not_older page
    /\ Permutation (page ++ left_out) (transactions (sys w))
    /\ (forall d d', In d page -> In d' left_out ->
          date_not_older (tx_timestamp d) (tx_timestamp d'))
    /\ ((List.length (transactions (sys w)) <= 5000)%nat ->
        Permutation page (transactions (sys w))).
Proof.
  intros Hok Hperm Hsorted.
  destruct (page_facts transaction_not_older _ _ page_limit Hperm Hsorted)
    as (Hlen & Hin & Hs & Hrest & Hall & Hshort).
  exists (firstn page_limit (sort_transactions e (transactions (sys w)))),
         (skipn page_limit (sort_transactions e (transactions (sys w)))).
  split; [ run_http; rewrite Hok; reflexivity | ].
  repeat split; assumption.
Qed.

Lemma list_alerts_returns_the_newest_witness :
  exists page,
    list_alerts http_env_ok listing_world = (inr (List_ok page), listing_world)
    /\ List.length page = 2%nat
    /\ StronglySorted alert_not_older page.
Proof.
  assert (Hs : sort_alerts http_env_ok (alerts (sys listing_world))
               = [pending_alert; early_alert]) by (vm_compute; reflexivity).
  destruct (list_alerts_returns_the_newest http_env_ok listing_world eq_refl)
    as (page & rest & Hr & Hlen & _ & Hsorted & _).
  - rewrite Hs. apply perm_swap.
  - rewrite Hs. repeat constructor. unfold alert_not_older. simpl. unfold noon, two_am. lia.
  - exists page. repeat split; assumption.
Defined.

Lemma list_transactions_returns_the_newest_witness :
  exists page,
    list_transactions http_env_ok listing_world = (inr (List_ok page), listing_world)
    /\ List.length page = 2%nat
    /\ StronglySorted transaction_not_older page.
Proof.
  assert (Hs : sort_transactions http_env_ok (transactions (sys listing_world))
               = [late_transaction; early_transaction]) by (vm_compute; reflexivity).
  destruct (list_transactions_returns_the_newest http_env_ok listing_world eq_refl)
    as (page & rest & Hr & Hlen & _ & Hsorted & _).
  - rewrite Hs. apply perm_swap.
  - rewrite Hs. repeat constructor.
    unfold transaction_not_older, date_not_older. simpl. unfold noon, two_am. lia.
  - exists page. repeat split; assumption.
Defined.

(* ------------------------------------------------------------------ *)
(** ** Submission (lines 189-200) and the way to the store *)

(** X15.  A submission never touches the collections.  When the producer
    accepts it, exactly the serialized body is published and, once that
    value is delivered to the consumer, a body that the consumer parses back,
    that carries a truthy identifier and is evaluated without exception is
    stored as a transaction, provided the store accepts the write.  When the
    producer rejects it, the answer is the error response, nothing is
    published and a delivery finds nothing to process. *)
Theorem submitted_transaction_reaches_the_store
    (e : HttpEnv) (h : Host) (env : Env) (body : json) (id : string)
    (a : acc) (t : Date) (w : World) :
  topic w = [] ->
  let w1 := snd (submit e body w) in
  let w2 := snd (deliver h env w1) in
  sys w1 = sys w
  /\ (producer_send_ok e = true ->
      JSON_parse h (JSON_stringify e body) = Some body ->
      truthy (identifier body) = true ->
      template h (identifier body) = Ok id ->
      evaluate h (now env) body = Ok (a, t) ->
      Transaction_create_ok env (transaction_doc body (identifier body) a t) = true ->
      fst (submit e body w) = inr Submit_ok
      /\ topic w1 = [JSON_stringify e body]
      /\ topic w2 = []
      /\ transactions (sys w2)
         = transactions (sys w) ++ [transaction_doc body (identifier body) a t])
  /\ (producer_send_ok e = false ->
      fst (submit e body w) = inr (Submit_500 PublishFault)
      /\ topic w1 = []
      /\ journal w1 = journal w ++ [Error_publish]
      /\ sys w2 = sys w).
Proof.
  intros Hempty. cbv zeta. run_http. rewrite Hempty.
  destruct (producer_send_ok e); simpl.
  - split; [ reflexivity | ]. split; [ | discriminate ].
    intros _ Hparse Hid Htext Heval Hok.
    split; [ reflexivity | ]. split; [ reflexivity | ]. split; [ reflexivity | ].
    rewrite (eachMessage_identified h env {| msg_value := Some (JSON_stringify e body) |}
               (JSON_stringify e body) body (sys w) eq_refl Hparse id a t
               Hid Htext Heval).
    cbv zeta. rewrite Hok.
    repeat match goal with
           | |- context [if ?b then _ else _] => destruct b
           end; reflexivity.
  - split; [ reflexivity | ]. split; [ discriminate | ].
    intros _. rewrite Hempty. repeat split.
Qed.

Lemma submitted_transaction_reaches_the_store_witness :
  transactions (sys (snd (deliver example_host (env_at noon)
                            (snd (submit http_env_ok risky_txn empty_world)))))
  = [ transaction_doc risky_txn (identifier risky_txn)
        (evaluated example_host noon risky_txn) (Some noon) ].
Proof.
  destruct (submitted_transaction_reaches_the_store
              http_env_ok example_host (env_at noon) risky_txn "t1"
              (evaluated example_host noon risky_txn) (Some noon) empty_world
              eq_refl) as (_ & Hok & _).
  destruct (Hok eq_refl eq_refl eq_refl eq_refl risky_txn_evaluates eq_refl)
    as (_ & _ & _ & Htx).
  exact Htx.
Defined.

(* ------------------------------------------------------------------ *)
(** ** The broker list (line 46) *)

Lemma split_commas_nonempty (s : string) : split_commas s <> [].
Proof.
  destruct s as [|c rest]; simpl; [ discriminate | ].
  destruct (Ascii.eqb c ","); [ discriminate | ].
  destruct (split_commas rest); discriminate.
Qed.

Lemma split_commas_join (s : string) : String.concat "," (split_commas s) = s.
Proof.
  induction s as [|c rest IH]; [ reflexivity | ].
  simpl split_commas.
  destruct (Ascii.eqb_spec c ",") as [->|Hc].
  - pose proof (split_commas_nonempty rest) as Hne.
    destruct (split_commas rest) as [|w ws]; [ contradiction | ].
    simpl in *. now rewrite IH.
  - pose proof (split_commas_nonempty rest) as Hne.
    destruct (split_commas rest) as [|w ws]; [ contradiction | ].
    destruct ws; simpl in *; now rewrite <- IH.
Qed.

Lemma split_commas_pieces (s : string) :
  List.length (split_commas s) = S (commas s)
  /\ Forall (fun piece => commas piece = O) (split_commas s).
Proof.
  induction s as [|c rest (IHl & IHf)]; simpl.
  - split; [ reflexivity | repeat constructor ].
  - destruct (Ascii.eqb c ",") eqn:Ec.
    + split; [ simpl; now rewrite IHl | constructor; [ reflexivity | exact IHf ] ].
    + destruct (split_commas rest) as [|w ws]; [ discriminate IHl | ].
      split; [ exact IHl | ].
      inversion IHf as [|? ? Hw Hws]; subst.
      constructor; [ simpl; now rewrite Ec | exact Hws ].
Qed.

(** X16.  The broker list is empty when [KAFKA_BROKERS] is unset or empty;
    otherwise it has one more broker than the variable has commas, no broker
    contains a comma, and joining the brokers with commas gives the variable
    back. *)
Theorem kafkaBrokers_splits_at_commas (v : option string) :
  (v = None \/ v = Some "" -> kafkaBrokers v = [])
  /\ (forall s, v = Some s -> s <> "" ->
        List.length (kafkaBrokers v) = S (commas s)
        /\ Forall (fun broker => commas broker = O) (kafkaBrokers v)
        /\ String.concat "," (kafkaBrokers v) = s).
Proof.
  split.
  - intros [-> | ->]; reflexivity.
  - intros s -> Hne. unfold kafkaBrokers.
    destruct (String.eqb_spec s ""); [ contradiction | ]. simpl.
    destruct (split_commas_pieces s) as (Hl & Hf).
    repeat split; [ exact Hl | exact Hf | apply split_commas_join ].
Qed.

Lemma kafkaBrokers_splits_at_commas_witness :
  kafkaBrokers (Some "kafka-1:9092,kafka-2:9092")
  = ["kafka-1:9092"; "kafka-2:9092"]
  /\ String.concat "," (kafkaBrokers (Some "kafka-1:9092,kafka-2:9092"))
     = "kafka-1:9092,kafka-2:9092".
Proof.
  split; [ reflexivity | ].
  destruct (kafkaBrokers_splits_at_commas (Some "kafka-1:9092,kafka-2:9092"))
    as (_ & H).
  destruct (H _ eq_refl) as (_ & _ & Hjoin); [ discriminate | exact Hjoin ].
Defined.

(* ------------------------------------------------------------------ *)
(** ** More on the rule evaluator (lines 77-141) *)

Lemma prop_other_member (k : string) (v : json) (members : list (string * json))
    (name : string) :
  name <> k -> prop (JObj (members ++ [(k, v)])) name = prop (JObj members) name.
Proof.
  intros Hne. simpl. induction members as [|[k' v'] rest IH]; simpl.
  - destruct (String.eqb_spec name k); [ contradiction | reflexivity ].
  - now rewrite IH.
Qed.

(** X17.  The evaluation reads twelve members of the payload and nothing
    else: adding a member with any other name to an object payload changes
    neither the score, nor the indicators, nor the resolved timestamp, nor
    whether the evaluation throws. *)
Theorem evaluate_ignores_other_members
    (h : Host) (now : Z) (members : list (string * json)) (k : string) (v : json) :
  ~ In k scoring_members ->
  evaluate h now (JObj (members ++ [(k, v)])) = evaluate h now (JObj members).
Proof.
  intros Hout.
  assert (Hp : forall name, In name scoring_members ->
                 prop (JObj (members ++ [(k, v)])) name = prop (JObj members) name).
  { intros name Hin. apply prop_other_member. intros ->. contradiction. }
  unfold evaluate, rule_geography, rule_cvv, rule_avs, rule_amount, rule_merchant,
    rule_category, rule_device, rule_vpn, rule_declines, rule_account_age, txnTime.
  rewrite (Hp "location"), (Hp "cvvMatch"), (Hp "avsMatch"), (Hp "amount"),
    (Hp "merchant"), (Hp "category"), (Hp "device"), (Hp "isVPN"), (Hp "isTor"),
    (Hp "previousDeclines"), (Hp "accountAge"), (Hp "timestamp")
    by (unfold scoring_members; simpl; tauto).
  reflexivity.
Qed.

Lemma evaluate_ignores_other_members_witness :
  evaluate example_host noon
    (JObj ([ ("id", JStr "t7"); ("cvvMatch", JBool false) ]
           ++ [ ("accountId", JStr "ACC-1") ]))
  = evaluate example_host noon lone_cvv_txn.
Proof.
  apply (evaluate_ignores_other_members example_host noon
           [ ("id", JStr "t7"); ("cvvMatch", JBool false) ] "accountId"
           (JStr "ACC-1")).
  unfold scoring_members. simpl.
  intros H. repeat destruct H as [H|H]; try discriminate H. exact H.
Defined.

Lemma codes_pick (rows : list rule_row) :
  map row_code (filter row_holds rows)
  = map snd (filter fst (combine (map row_holds rows) (map row_code rows))).
Proof.
  induction rows as [|r rows IH]; simpl; [ reflexivity | ].
  destruct (row_holds r); simpl; now rewrite IH.
Qed.

Lemma distinctb_NoDup (l : list string) : distinctb l = true -> NoDup l.
Proof.
  induction l as [|x l IH]; simpl; [ constructor | ].
  intros H. apply andb_true_iff in H. destruct H as (Hx & Hl).
  constructor; [ | now apply IH ].
  intros Hin. apply negb_true_iff in Hx.
  assert (Hex : existsb (String.eqb x) l = true).
  { apply existsb_exists. exists x. split; [ exact Hin | apply String.eqb_refl ]. }
  congruence.
Qed.

(** X18.  For every evaluation that returns, no indicator code appears
    twice, there are at most eleven indicators, and the fraud indicators
    stored with the transaction are as many. *)
Theorem indicator_codes_are_distinct
    (h : Host) (now : Z) (txn : json) (a : acc) (t : Date) :
  evaluate h now txn = Ok (a, t) ->
  NoDup (map code (indicators a))
  /\ (List.length (indicators a) <= 11)%nat
  /\ (forall id, List.length (tx_fraudIndicators (transaction_doc txn id a t))
                 = List.length (indicators a)).
Proof.
  intros E.
  pose proof (evaluate_codes h now txn a t E) as Hcodes.
  unfold Spec.matching in Hcodes. rewrite codes_pick in Hcodes.
  set (hour := getHours h t) in *.
  set (v := map row_holds (Spec.table txn hour)) in *.
  change (map row_code (Spec.table txn hour)) with table_codes in Hcodes.
  assert (Hall : forallb (fun v => implb (exclusive v)
                                     (distinctb (selected_codes v)
                                      && Nat.leb (List.length (selected_codes v)) 11))
                   (bool_vectors 12) = true) by (vm_compute; reflexivity).
  rewrite forallb_forall in Hall.
  specialize (Hall v (bool_vectors_complete v)).
  assert (Hex : exclusive v = true).
  { unfold exclusive. change (nth 3 v false) with (Spec.high_amount txn).
    change (nth 4 v false) with (Spec.medium_amount txn).
    now rewrite amount_rows_exclusive. }
  rewrite Hex in Hall. simpl implb in Hall.
  apply andb_true_iff in Hall. destruct Hall as (Hd & Hn).
  fold (selected_codes v) in Hcodes.
  split; [ rewrite Hcodes; now apply distinctb_NoDup | ].
  split.
  - rewrite <- (length_map code), Hcodes. now apply Nat.leb_le.
  - intros id. simpl. apply length_map.
Qed.

Lemma indicator_codes_are_distinct_witness :
  NoDup (map code (indicators (evaluated example_host two_am saturated_txn)))
  /\ List.length (indicators (evaluated example_host two_am saturated_txn)) = 11%nat.
Proof.
  split; [ | vm_compute; reflexivity ].
  exact (proj1 (indicator_codes_are_distinct example_host two_am saturated_txn
                  _ _ saturated_txn_evaluates)).
Defined.
